(** * Click counter (Model / View / Controller with an Observer)

    A shallow embedding of [contador_cliques_mvc.py] and the properties of
    its three classes: [ClickCounterModel] (the counter and its list of
    observers), [ClickCounterView] (the read-out and the two listener
    slots) and [ClickCounterController] (the observer wiring both).

    Python objects are values with an identity and a class; methods are
    computations in a state-and-exception monad over the one model and the
    one view the program builds.  An exception leaves the state as it was
    when it was raised, as in Python.

    Code from outside the file (the [update] of other observers, other
    listeners) is given by its body: what it prints, what it writes to
    the read-out, whether it returns or raises.  A listener may also call
    the mutators of the model; an [update] body may not, calls back into
    the model from inside a notification being left undefined by the
    design. *)

From Stdlib Require Import ZArith List String Bool Lia.
From Stdlib Require Import DecimalString.
Import ListNotations.
Local Open Scope Z_scope.

(** ** Exceptions *)

Inductive exn : Type :=
| TypeError (msg : string)
| ValueError (msg : string)
| AttributeError (msg : string)
| RuntimeError (msg : string).

Definition exn_eq_dec (a b : exn) : {a = b} + {a <> b}.
Proof. decide equality; apply string_dec. Defined.

(** ** Python values *)

(** A statement of the body of an [update] method written outside this
    file: it prints a line or writes a number to the read-out through
    [view.update_display]. *)
Inductive update_stmt : Type :=
| U_print (line : string)
| U_update_display (count : Z).

Definition update_stmt_eq_dec (a b : update_stmt) : {a = b} + {a <> b}.
Proof. decide equality; [apply string_dec | apply Z.eq_dec]. Defined.

(** What the attribute [update] of an object of a class from outside is:
    absent; present but not callable ([update = None] in the class body);
    or a method, given by the statements it runs and by the exception it
    then raises, if any. *)
Inductive update_attr : Type :=
| Attr_missing
| Attr_None
| Attr_method (body : list update_stmt) (raises : option exn).

Definition update_attr_eq_dec (a b : update_attr) : {a = b} + {a <> b}.
Proof.
  decide equality.
  - decide equality. apply exn_eq_dec.
  - apply list_eq_dec. apply update_stmt_eq_dec.
Defined.

(** The classes an object handed to the model may belong to.
    [Cls_ClickCounterController] is the class of the source.
    [Cls_foreign observer upd] is a class from outside: [observer] tells
    whether [isinstance(o, Observer)] holds of its instances (the class
    derives from the abstract base class, or was registered with it by
    [Observer.register], which asks for no [update] at all), [upd] what
    their [update] attribute is. *)
Inductive pyclass : Type :=
| Cls_ClickCounterController
| Cls_foreign (observer : bool) (upd : update_attr).

(** A subclass of [Observer] whose [update] does nothing and returns. *)
Definition Cls_ObserverSubclass : pyclass :=
  Cls_foreign true (Attr_method [] None).

(** A class with such an [update] that does not derive from [Observer]. *)
Definition Cls_Duck : pyclass := Cls_foreign false (Attr_method [] None).

(** A class without [update] that does not derive from [Observer]. *)
Definition Cls_Plain : pyclass := Cls_foreign false Attr_missing.

(** An object: its identity and its class. *)
Record pyobject : Type := mk_object { obj_id : nat; obj_class : pyclass }.

Definition pyclass_eq_dec (a b : pyclass) : {a = b} + {a <> b}.
Proof. decide equality; [apply update_attr_eq_dec | apply Bool.bool_dec]. Defined.

Definition pyobject_eq_dec (a b : pyobject) : {a = b} + {a <> b}.
Proof. decide equality; [apply pyclass_eq_dec | apply Nat.eq_dec]. Defined.

(** [isinstance(o, Observer)]. *)
Definition isinstance_Observer (o : pyobject) : bool :=
  match obj_class o with
  | Cls_ClickCounterController => true
  | Cls_foreign observer _ => observer
  end.

(** [hasattr(o, "update")] with a no-argument method behind it. *)
Definition has_update (o : pyobject) : bool :=
  match obj_class o with
  | Cls_ClickCounterController => true
  | Cls_foreign _ (Attr_method _ _) => true
  | Cls_foreign _ _ => false
  end.

(** A statement of the body of a listener written outside this file: it
    prints, writes to the read-out, or calls a mutator of the model. *)
Inductive listener_stmt : Type :=
| L_print (line : string)
| L_update_display (count : Z)
| L_increment
| L_reset.

Definition listener_stmt_eq_dec (a b : listener_stmt) : {a = b} + {a <> b}.
Proof. decide equality; [apply string_dec | apply Z.eq_dec]. Defined.

(** What a listener slot of the view can hold besides [None]: the bound
    methods [controller._on_click] and [controller._on_reset], or a
    callable object from outside, given by its identity, its truth value
    (that of [__bool__] or [__len__]; functions and bound methods are
    true), the statements it runs and the exception it then raises, if
    any. *)
Inductive callable : Type :=
| Controller_on_click (self : pyobject)
| Controller_on_reset (self : pyobject)
| Foreign_callable (id : nat) (truth : bool)
                   (body : list listener_stmt) (raises : option exn).

Definition callable_eq_dec (a b : callable) : {a = b} + {a <> b}.
Proof.
  decide equality; try apply pyobject_eq_dec.
  - decide equality. apply exn_eq_dec.
  - apply list_eq_dec. apply listener_stmt_eq_dec.
  - apply Bool.bool_dec.
  - apply Nat.eq_dec.
Defined.

(** Truth value of a slot, as [if self._click_listener:] tests it. *)
Definition truthy (slot : option callable) : bool :=
  match slot with
  | None => false
  | Some (Foreign_callable _ truth _ _) => truth
  | Some _ => true
  end.

(** [str(n)] for an [int]. *)
Definition str (n : Z) : string := NilZero.string_of_int (Z.to_int n).

(** ** State *)

Record ClickCounterModel : Type := mk_model {
  _count : Z;
  _observers : list pyobject
}.

(** Of the widgets only the label [count_display] is ever reconfigured:
    its [text] and [foreground] options. *)
Record ClickCounterView : Type := mk_view {
  count_display_text : string;
  count_display_foreground : string;
  _click_listener : option callable;
  _reset_listener : option callable
}.

(** Entries of the call log: which [update()] and which listener ran. *)
Inductive event : Type :=
| Call_update (o : pyobject)
| Call_listener (f : callable).

Definition event_eq_dec (a b : event) : {a = b} + {a <> b}.
Proof. decide equality; [apply pyobject_eq_dec | apply callable_eq_dec]. Defined.

(** The program's state: the model, the view, what was printed, and the
    log of calls (oldest first). *)
Record World : Type := mk_world {
  model : ClickCounterModel;
  view : ClickCounterView;
  stdout : list string;
  calls : list event
}.

(** ** The monad *)

Inductive outcome (A : Type) : Type :=
| Return (a : A)
| Raise (e : exn).
Arguments Return {A} a.
Arguments Raise {A} e.

Definition M (A : Type) : Type := World -> World * outcome A.

Definition ret {A} (a : A) : M A := fun w => (w, Return a).

Definition raise {A} (e : exn) : M A := fun w => (w, Raise e).

Definition bind {A B} (c : M A) (k : A -> M B) : M B :=
  fun w =>
    match c w with
    | (w', Return a) => k a w'
    | (w', Raise e) => (w', Raise e)
    end.

Notation "x <- c ;; k" := (bind c (fun x => k))
  (at level 61, c at next level, right associativity).
Notation "c ;; k" := (bind c (fun _ => k))
  (at level 61, right associativity).

Definition get_model : M ClickCounterModel := fun w => (w, Return (model w)).

Definition put_model (m : ClickCounterModel) : M unit :=
  fun w => (mk_world m (view w) (stdout w) (calls w), Return tt).

Definition get_view : M ClickCounterView := fun w => (w, Return (view w)).

Definition put_view (v : ClickCounterView) : M unit :=
  fun w => (mk_world (model w) v (stdout w) (calls w), Return tt).

Definition print (s : string) : M unit :=
  fun w => (mk_world (model w) (view w) (stdout w ++ [s]) (calls w), Return tt).

Definition log (e : event) : M unit :=
  fun w => (mk_world (model w) (view w) (stdout w) (calls w ++ [e]), Return tt).

(** [for x in l: body(x)] over a list the body does not change. *)
Fixpoint for_each {A} (l : list A) (body : A -> M unit) : M unit :=
  match l with
  | [] => ret tt
  | x :: rest => body x ;; for_each rest body
  end.

(** ** Python lists *)

(** [x in l]. *)
Definition list_contains (x : pyobject) (l : list pyobject) : bool :=
  existsb (fun y => if pyobject_eq_dec x y then true else false) l.

(** [l.remove(x)]: drops the first item equal to [x]; [None] stands for the
    [ValueError] raised when there is none. *)
Fixpoint list_remove (x : pyobject) (l : list pyobject) : option (list pyobject) :=
  match l with
  | [] => None
  | y :: rest =>
      if pyobject_eq_dec x y then Some rest
      else match list_remove x rest with
           | Some rest' => Some (y :: rest')
           | None => None
           end
  end.

(** ** ClickCounterView *)

Definition new_ClickCounterView : ClickCounterView :=
  mk_view "0"%string "#0066cc"%string None None.

Definition set_click_listener (callback : option callable) : M unit :=
  v <- get_view ;;
  put_view (mk_view (count_display_text v) (count_display_foreground v)
                    callback (_reset_listener v)).

Definition set_reset_listener (callback : option callable) : M unit :=
  v <- get_view ;;
  put_view (mk_view (count_display_text v) (count_display_foreground v)
                    (_click_listener v) callback).

Definition count_display_config_text (s : string) : M unit :=
  v <- get_view ;;
  put_view (mk_view s (count_display_foreground v)
                    (_click_listener v) (_reset_listener v)).

Definition count_display_config_foreground (s : string) : M unit :=
  v <- get_view ;;
  put_view (mk_view (count_display_text v) s
                    (_click_listener v) (_reset_listener v)).

Definition update_display (count : Z) : M unit :=
  count_display_config_text (str count) ;;
  if 0 <? count
  then count_display_config_foreground "#0066cc"%string
  else count_display_config_foreground "#999999"%string.

(** ** ClickCounterModel *)

Definition new_ClickCounterModel : ClickCounterModel := mk_model 0 [].

Definition get_count : M Z :=
  m <- get_model ;; ret (_count m).

Definition update_message : string := "📊 Atualizando view - Contador: ".

(** [ClickCounterController.update], the one [update] body of the source. *)
Definition update (self : pyobject) : M unit :=
  log (Call_update self) ;;
  count <- get_count ;;
  print (String.append update_message (str count)) ;;
  update_display count.

(** The exception a body ends with, if any. *)
Definition raise_if (raises : option exn) : M unit :=
  match raises with
  | Some e => raise e
  | None => ret tt
  end.

Definition run_update_stmt (s : update_stmt) : M unit :=
  match s with
  | U_print line => print line
  | U_update_display count => update_display count
  end.

(** [update] of an object of a class from outside: the method is entered
    (and logged), runs its body and returns or raises. *)
Definition foreign_update (self : pyobject) (body : list update_stmt)
           (raises : option exn) : M unit :=
  log (Call_update self) ;;
  for_each body run_update_stmt ;;
  raise_if raises.

Definition no_update_message : string :=
  "object has no attribute 'update'".

Definition not_callable_message : string :=
  "'NoneType' object is not callable".

(** [observer.update()], dispatched on the class of [observer]. *)
Definition call_update (observer : pyobject) : M unit :=
  match obj_class observer with
  | Cls_ClickCounterController => update observer
  | Cls_foreign _ (Attr_method body raises) =>
      foreign_update observer body raises
  | Cls_foreign _ Attr_None => raise (TypeError not_callable_message)
  | Cls_foreign _ Attr_missing => raise (AttributeError no_update_message)
  end.

Definition _notify_observers : M unit :=
  m <- get_model ;;
  for_each (_observers m) call_update.

Definition increment : M unit :=
  m <- get_model ;;
  put_model (mk_model (_count m + 1) (_observers m)) ;;
  _notify_observers.

Definition reset : M unit :=
  m <- get_model ;;
  put_model (mk_model 0 (_observers m)) ;;
  _notify_observers.

Definition type_error_message : string :=
  "Observador deve implementar a interface Observer".

Definition add_observer (observer : pyobject) : M unit :=
  if negb (isinstance_Observer observer)
  then raise (TypeError type_error_message)
  else
    m <- get_model ;;
    put_model (mk_model (_count m) (_observers m ++ [observer])).

Definition remove_observer (observer : pyobject) : M unit :=
  m <- get_model ;;
  if list_contains observer (_observers m)
  then
    match list_remove observer (_observers m) with
    | Some l => put_model (mk_model (_count m) l)
    | None => raise (ValueError "list.remove(x): x not in list"%string)
    end
  else ret tt.

(** ** ClickCounterController *)

Definition click_message : string := "👆 Botão 'Clique' pressionado".

Definition reset_message : string := "🔄 Botão 'Resetar' pressionado".

Definition _on_click (self : pyobject) : M unit :=
  print click_message ;;
  increment.

Definition _on_reset (self : pyobject) : M unit :=
  print reset_message ;;
  reset.

(** The controller object with identity [c]. *)
Definition controller (c : nat) : pyobject :=
  mk_object c Cls_ClickCounterController.

(** [ClickCounterController(model, view)] for the model and the view of
    the state; [c] is the identity of the new object. *)
Definition new_ClickCounterController (c : nat) : M unit :=
  let self := controller c in
  set_click_listener (Some (Controller_on_click self)) ;;
  set_reset_listener (Some (Controller_on_reset self)) ;;
  add_observer self ;;
  update self.

(** ** Button presses *)

Definition run_listener_stmt (s : listener_stmt) : M unit :=
  match s with
  | L_print line => print line
  | L_update_display count => update_display count
  | L_increment => increment
  | L_reset => reset
  end.

(** Calling what a slot holds. *)
Definition invoke (f : callable) : M unit :=
  log (Call_listener f) ;;
  match f with
  | Controller_on_click self => _on_click self
  | Controller_on_reset self => _on_reset self
  | Foreign_callable _ _ body raises =>
      for_each body run_listener_stmt ;;
      raise_if raises
  end.

Definition _on_click_pressed : M unit :=
  v <- get_view ;;
  if truthy (_click_listener v)
  then match _click_listener v with
       | Some f => invoke f
       | None => ret tt
       end
  else ret tt.

Definition _on_reset_pressed : M unit :=
  v <- get_view ;;
  if truthy (_reset_listener v)
  then match _reset_listener v with
       | Some f => invoke f
       | None => ret tt
       end
  else ret tt.

(** ** Calls from outside *)

(** Everything a client of the three classes can do to the state. *)
Inductive action : Type :=
| Do_increment
| Do_reset
| Do_add_observer (observer : pyobject)
| Do_remove_observer (observer : pyobject)
| Do_set_click_listener (callback : option callable)
| Do_set_reset_listener (callback : option callable)
| Do_click_pressed
| Do_reset_pressed
| Do_update_display (count : Z)
| Do_new_controller (c : nat).

Definition perform (a : action) : M unit :=
  match a with
  | Do_increment => increment
  | Do_reset => reset
  | Do_add_observer o => add_observer o
  | Do_remove_observer o => remove_observer o
  | Do_set_click_listener f => set_click_listener f
  | Do_set_reset_listener f => set_reset_listener f
  | Do_click_pressed => _on_click_pressed
  | Do_reset_pressed => _on_reset_pressed
  | Do_update_display n => update_display n
  | Do_new_controller c => new_ClickCounterController c
  end.

(** The state a call leaves behind, whether it returned or raised. *)
Definition step (a : action) (w : World) : World := fst (perform a w).

Definition exec (l : list action) (w : World) : World :=
  fold_left (fun w a => step a w) l w.

(** States of a program that builds the model with [ClickCounterModel()]
    and only goes through the methods afterwards. *)
Inductive reachable : World -> Prop :=
| reachable_init : forall v out cs,
    reachable (mk_world new_ClickCounterModel v out cs)
| reachable_step : forall a w,
    reachable w -> reachable (step a w).

(** The two mutators of the model. *)
Inductive mutator : Type := Increment | Reset.

Definition call_mutator (m : mutator) : M unit :=
  match m with
  | Increment => increment
  | Reset => reset
  end.

(** What a call appended to the log. *)
Definition new_calls (before after : World) : list event :=
  skipn (List.length (calls before)) (calls after).

(** How often [o.update()] occurs in a piece of the log. *)
Definition updates_of (o : pyobject) (evs : list event) : nat :=
  count_occ event_eq_dec evs (Call_update o).

(** How often [o] is registered. *)
Definition registrations (o : pyobject) (w : World) : nat :=
  count_occ pyobject_eq_dec (_observers (model w)) o.

(** The listener calls of a piece of the log. *)
Definition listener_calls (evs : list event) : list callable :=
  flat_map (fun e => match e with
                     | Call_listener f => [f]
                     | Call_update _ => []
                     end) evs.

(** ** The application *)

Inductive button : Type := Click_button | Reset_button.

Definition press (b : button) : M unit :=
  match b with
  | Click_button => _on_click_pressed
  | Reset_button => _on_reset_pressed
  end.

(** [view.mainloop()] over the presses that arrive before the window is
    closed; Tk reports an exception of a command and goes on. *)
Definition mainloop (presses : list button) (w : World) : World :=
  fold_left (fun w b => fst (press b w)) presses w.

Definition run (presses : list button) (w : World) : World :=
  mainloop presses w.

Definition banner : list string :=
  [ String.concat "" (repeat "="%string 60);
    "         Aplicação Contador de Cliques - Padrão MVC"%string;
    String.concat "" (repeat "="%string 60);
    "✓ Modelo: ClickCounterModel (gerencia o estado)"%string;
    "✓ Visualização: ClickCounterView (interface gráfica)"%string;
    "✓ Controlador: ClickCounterController (conecta M e V)"%string;
    "✓ Padrão Observer: Implementado para notificações"%string;
    String.concat "" (repeat "="%string 60);
    ""%string ].

(** [main()], given the presses of the session. *)
Definition main (presses : list button) : World :=
  let w0 := mk_world new_ClickCounterModel new_ClickCounterView banner [] in
  let w1 := fst (new_ClickCounterController 0 w0) in
  run presses w1.

(** ** The specification's counter *)

(** The number of [increment()] calls since the most recent [reset()], or
    since the start when there was none; the calls are given latest
    first. *)
Fixpoint increments_back (latest_first : list mutator) : Z :=
  match latest_first with
  | [] => 0
  | Increment :: earlier => increments_back earlier + 1
  | Reset :: _ => 0
  end.

Definition increments_since_reset (ms : list mutator) : Z :=
  increments_back (rev ms).

(** The claim of one [update()] per subscriber, whatever the number of its
    registrations. *)
Definition each_subscriber_updated_once (obs : list pyobject) (evs : list event) : Prop :=
  forall o, In o obs -> updates_of o evs = 1%nat.

(** ** Auxiliary notions *)

(** Instances of [ClickCounterController]. *)
Definition is_controller (o : pyobject) : bool :=
  match obj_class o with
  | Cls_ClickCounterController => true
  | _ => false
  end.

(** The counter a mutator leaves. *)
Definition count_after (m : mutator) (count : Z) : Z :=
  match m with
  | Increment => count + 1
  | Reset => 0
  end.

(** The calls that put [o] on the list of observers (the constructor of
    the controller registers the new object and calls its [update]). *)
Definition registersb (a : action) (o : pyobject) : bool :=
  match a with
  | Do_add_observer x => if pyobject_eq_dec x o then true else false
  | Do_new_controller c => if pyobject_eq_dec (controller c) o then true else false
  | _ => false
  end.

(** What the code run by a listener or a mutator does: the list of
    observers stays, the counter stays non-negative, the only calls are
    [update()] calls of registered observers. *)
Definition inner_summary (w w' : World) : Prop :=
  _observers (model w') = _observers (model w) /\
  (0 <= _count (model w) -> 0 <= _count (model w')) /\
  exists evs, calls w' = calls w ++ evs /\
    listener_calls evs = [] /\
    forall o, In (Call_update o) evs -> In o (_observers (model w)).

(** The summary of a call: which observers the list can hold afterwards,
    the sign of the counter, and whose [update()] can have run. *)
Definition summary (a : action) (w w' : World) : Prop :=
  (forall x, In x (_observers (model w')) ->
     In x (_observers (model w)) \/
     (registersb a x = true /\ isinstance_Observer x = true)) /\
  (0 <= _count (model w) -> 0 <= _count (model w')) /\
  (exists evs, calls w' = calls w ++ evs /\
     forall o, In (Call_update o) evs ->
       In o (_observers (model w)) \/ registersb a o = true).

(** [o.update()] returns: the method exists and does not raise. *)
Definition update_returns (o : pyobject) : bool :=
  match obj_class o with
  | Cls_ClickCounterController => true
  | Cls_foreign _ (Attr_method _ None) => true
  | Cls_foreign _ _ => false
  end.

Definition update_stmt_keeps_display (s : update_stmt) : bool :=
  match s with
  | U_print _ => true
  | U_update_display _ => false
  end.

(** [o.update()] does not write to the read-out behind the controller's
    back. *)
Definition keeps_display (o : pyobject) : bool :=
  match obj_class o with
  | Cls_foreign _ (Attr_method body _) => forallb update_stmt_keeps_display body
  | _ => true
  end.

(** An observer the controller can live with: its [update] returns and
    leaves the read-out alone. *)
Definition well_behaved (o : pyobject) : bool :=
  update_returns o && keeps_display o.

Definition listener_stmt_keeps_display (s : listener_stmt) : bool :=
  match s with
  | L_update_display _ => false
  | _ => true
  end.

(** A slot whose content, if called, does not write to the read-out. *)
Definition slot_keeps_display (slot : option callable) : bool :=
  match slot with
  | Some (Foreign_callable _ _ body _) => forallb listener_stmt_keeps_display body
  | _ => true
  end.

(** A slot whose content, if called, does not raise of its own. *)
Definition slot_returns (slot : option callable) : bool :=
  match slot with
  | Some (Foreign_callable _ _ _ (Some _)) => false
  | _ => true
  end.

(** Calls that keep the controller [c] in charge of the read-out: they do
    not unsubscribe it, do not write to the read-out, and bring in no
    observer or listener that would write to it or, for an observer, whose
    [update] would not return. *)
Definition relay_safe (c : nat) (a : action) : bool :=
  match a with
  | Do_remove_observer o => if pyobject_eq_dec o (controller c) then false else true
  | Do_update_display _ => false
  | Do_add_observer o => negb (isinstance_Observer o) || well_behaved o
  | Do_set_click_listener f => slot_keeps_display f
  | Do_set_reset_listener f => slot_keeps_display f
  | _ => true
  end.

(** The read-out shows the counter. *)
Definition display_synced (w : World) : Prop :=
  count_display_text (view w) = str (_count (model w)).

Arguments str : simpl never.
Arguments String.append : simpl never.


(** ** The window geometry *)

(** What Tk answers when [_center_window] asks: [winfo_width()],
    [winfo_height()], [winfo_screenwidth()] and [winfo_screenheight()]. *)
Record winfo : Type := mk_winfo {
  winfo_width : Z;
  winfo_height : Z;
  winfo_screenwidth : Z;
  winfo_screenheight : Z
}.

(** A window geometry: size and position of the top-left corner. *)
Record geometry : Type := mk_geometry {
  geo_width : Z;
  geo_height : Z;
  geo_x : Z;
  geo_y : Z
}.

(** The f-string [f'{width}x{height}+{x}+{y}']. *)
Definition geometry_string (g : geometry) : string :=
  String.concat ""%string
    [str (geo_width g); "x"%string; str (geo_height g);
     "+"%string; str (geo_x g); "+"%string; str (geo_y g)].

(** [_center_window]: the geometry it hands, as [geometry_string], to
    [self.geometry]; [//] is the floor division of [Z]. *)
Definition _center_window (tk : winfo) : geometry :=
  let width := winfo_width tk in
  let height := winfo_height tk in
  let x := winfo_screenwidth tk / 2 - width / 2 in
  let y := winfo_screenheight tk / 2 - height / 2 in
  mk_geometry width height x y.

(** ** Auxiliary notions, continued *)

(** The colour [update_display] gives the read-out. *)
Definition display_colour (count : Z) : string :=
  if 0 <? count then "#0066cc"%string else "#999999"%string.

(** The view after [update_display(count)]. *)
Definition pushed_view (count : Z) (v : ClickCounterView) : ClickCounterView :=
  mk_view (str count) (display_colour count)
          (_click_listener v) (_reset_listener v).

(** The line a controller prints in [update]. *)
Definition update_line (count : Z) : string :=
  String.append update_message (str count).

(** The read-out has the colour of the counter. *)
Definition display_coloured (w : World) : Prop :=
  count_display_foreground (view w) = display_colour (_count (model w)).

(** What each button of [main()] is wired to. *)
Definition mutator_of_button (b : button) : mutator :=
  match b with
  | Click_button => Increment
  | Reset_button => Reset
  end.

Definition button_listener (b : button) : callable :=
  match b with
  | Click_button => Controller_on_click (controller 0)
  | Reset_button => Controller_on_reset (controller 0)
  end.

Definition button_message (b : button) : string :=
  match b with
  | Click_button => click_message
  | Reset_button => reset_message
  end.

(** The states of [main()]: controller 0 alone on the list, both buttons
    wired to it, the read-out showing the counter. *)
Definition wired (count : Z) (out : list string) (cs : list event) : World :=
  mk_world (mk_model count [controller 0])
           (mk_view (str count) (display_colour count)
                    (Some (Controller_on_click (controller 0)))
                    (Some (Controller_on_reset (controller 0))))
           out cs.

(** What the controller [c] needs and maintains: it is subscribed, every
    observer is well behaved, neither slot writes to the read-out, and
    the read-out shows the counter in its colour. *)
Definition relay_invariant (c : nat) (w : World) : Prop :=
  In (controller c) (_observers (model w)) /\
  Forall (fun o => well_behaved o = true) (_observers (model w)) /\
  slot_keeps_display (_click_listener (view w)) = true /\
  slot_keeps_display (_reset_listener (view w)) = true /\
  display_synced w /\
  display_coloured w.

(** An initial state, and the states a sequence of calls reaches from it. *)
Definition initial_world (v : ClickCounterView) : World :=
  mk_world new_ClickCounterModel v [] [].

(** ** Sample objects and states *)

(** A fresh model next to a fresh view, nothing printed or called yet. *)
Definition fresh_world : World :=
  mk_world new_ClickCounterModel new_ClickCounterView [] [].

(** An observer of some class deriving from [Observer]. *)
Definition subscriber7 : pyobject := mk_object 7 Cls_ObserverSubclass.

(** An object with an [update()] method whose class does not derive from
    [Observer]. *)
Definition duck5 : pyobject := mk_object 5 Cls_Duck.

(** An instance of a subclass of [Observer] whose [update] raises. *)
Definition boom8 : pyobject :=
  mk_object 8 (Cls_foreign true (Attr_method [] (Some (RuntimeError "boom")))).

(** A callable object whose truth value is false (its class defines
    [__bool__] or [__len__]). *)
Definition falsy_listener : callable := Foreign_callable 2 false [] None.

(** [boom8] registered ahead of [subscriber7]. *)
Definition boom_first : World :=
  exec [Do_add_observer boom8; Do_add_observer subscriber7] fresh_world.


(** [model.add_observer(s); model.add_observer(s)] on a fresh model. *)
Definition twice_registered : World :=
  exec [Do_add_observer subscriber7; Do_add_observer subscriber7] fresh_world.

(** ** Scenarios *)

Example scenario_start :
  count_display_text (view (main [])) = "0"%string.
Proof. vm_compute. reflexivity. Qed.

Example scenario_three_clicks :
  let w := main [Click_button; Click_button; Click_button] in
  count_display_text (view w) = "3"%string /\ get_count w = (w, Return 3).
Proof. vm_compute. split; reflexivity. Qed.

Example scenario_reset :
  let w := main [Click_button; Click_button; Click_button; Reset_button] in
  count_display_text (view w) = "0"%string /\ get_count w = (w, Return 0).
Proof. vm_compute. split; reflexivity. Qed.

Example scenario_click_reset_click_click :
  count_display_text
    (view (main [Click_button; Reset_button; Click_button; Click_button]))
  = "2"%string.
Proof. vm_compute. reflexivity. Qed.

Example scenario_two_subscribers :
  let second := mk_object 7 Cls_ObserverSubclass in
  let w1 := step (Do_add_observer second) (main []) in
  new_calls w1 (step Do_click_pressed w1)
  = [Call_listener (Controller_on_click (controller 0));
     Call_update (controller 0); Call_update second].
Proof. vm_compute. reflexivity. Qed.

Example scenario_center_window :
  geometry_string (_center_window (mk_winfo 400 300 1920 1080))
  = "400x300+760+390"%string.
Proof. vm_compute. reflexivity. Qed.

Example scenario_bad_subscriber :
  let w := main [] in
  add_observer (mk_object 9 Cls_Plain) w
  = (w, Raise (TypeError type_error_message)).
Proof. vm_compute. reflexivity. Qed.

(** ** The notification loop *)

Ltac run_monad :=
  cbv [bind ret raise get_model put_model get_view put_view print log
       get_count update_display count_display_config_text
       count_display_config_foreground set_click_listener
       set_reset_listener update call_update];
  cbn [fst snd model view stdout calls _count _observers
       count_display_text count_display_foreground _click_listener
       _reset_listener obj_class obj_id].

Lemma for_each_cons {A} (x : A) (l : list A) (body : A -> M unit) (w : World) :
  for_each (x :: l) body w =
  match body x w with
  | (w', Return _) => for_each l body w'
  | (w', Raise e) => (w', Raise e)
  end.
Proof. reflexivity. Qed.

Lemma update_display_exact (n : Z) (w : World) :
  update_display n w =
  (mk_world (model w) (pushed_view n (view w)) (stdout w) (calls w), Return tt).
Proof.
  unfold update_display, pushed_view, display_colour. run_monad.
  destruct (0 <? n); reflexivity.
Qed.

Lemma update_exact (self : pyobject) (w : World) :
  update self w =
  (mk_world (model w) (pushed_view (_count (model w)) (view w))
            (stdout w ++ [update_line (_count (model w))])
            (calls w ++ [Call_update self]),
   Return tt).
Proof.
  unfold update, get_count, pushed_view, display_colour, update_line.
  run_monad. destruct (0 <? _count (model w)); reflexivity.
Qed.

(** The body of a foreign [update] returns; it leaves the model, the log
    and the slots alone, and the whole view when it does not write to the
    read-out. *)
Lemma update_body_spec (body : list update_stmt) :
  forall w, exists w',
    for_each body run_update_stmt w = (w', Return tt) /\
    model w' = model w /\ calls w' = calls w /\
    _click_listener (view w') = _click_listener (view w) /\
    _reset_listener (view w') = _reset_listener (view w) /\
    (forallb update_stmt_keeps_display body = true -> view w' = view w).
Proof.
  induction body as [ | s body IH]; intros w.
  - exists w. cbn. auto 10.
  - rewrite for_each_cons. destruct s as [line | n]; cbn [run_update_stmt].
    + unfold print at 1.
      destruct (IH (mk_world (model w) (view w) (stdout w ++ [line]) (calls w)))
        as (w' & E & Hm & Hc & Hl & Hr & Hv).
      exists w'. rewrite E. cbn [model view calls forallb andb] in *. auto 10.
    + rewrite update_display_exact.
      destruct (IH (mk_world (model w) (pushed_view n (view w)) (stdout w) (calls w)))
        as (w' & E & Hm & Hc & Hl & Hr & Hv).
      exists w'. rewrite E. cbn [model view calls forallb andb pushed_view
        _click_listener _reset_listener] in *.
      repeat split; auto. discriminate.
Qed.

Lemma foreign_update_unfold (o : pyobject) (body : list update_stmt)
      (raises : option exn) (w : World) :
  foreign_update o body raises w =
  match for_each body run_update_stmt
          (mk_world (model w) (view w) (stdout w) (calls w ++ [Call_update o])) with
  | (w', Return _) => raise_if raises w'
  | (w', Raise e) => (w', Raise e)
  end.
Proof. reflexivity. Qed.

(** One [observer.update()]: what it leaves alone, whatever its outcome. *)
Lemma call_update_frame (o : pyobject) (w : World) :
  let w' := fst (call_update o w) in
  model w' = model w /\
  _click_listener (view w') = _click_listener (view w) /\
  _reset_listener (view w') = _reset_listener (view w) /\
  (calls w' = calls w \/ calls w' = calls w ++ [Call_update o]).
Proof.
  cbv zeta. destruct o as [i [ | b [ | | body raises]]]; unfold call_update;
    cbn [obj_class].
  - rewrite update_exact. cbn. auto.
  - cbn. auto.
  - cbn. auto.
  - rewrite foreign_update_unfold.
    destruct (update_body_spec body
      (mk_world (model w) (view w) (stdout w)
         (calls w ++ [Call_update (mk_object i (Cls_foreign b (Attr_method body raises)))])))
      as (w' & E & Hm & Hc & Hl & Hr & _).
    rewrite E. cbn [model view calls] in *.
    destruct raises; cbn [raise_if raise ret fst]; auto.
Qed.

(** One [observer.update()] that returns. *)
Lemma call_update_ok (o : pyobject) (w : World) :
  update_returns o = true ->
  exists w', call_update o w = (w', Return tt) /\
    model w' = model w /\
    calls w' = calls w ++ [Call_update o] /\
    _click_listener (view w') = _click_listener (view w) /\
    _reset_listener (view w') = _reset_listener (view w) /\
    (is_controller o = true ->
       view w' = pushed_view (_count (model w)) (view w)) /\
    (is_controller o = false -> keeps_display o = true -> view w' = view w).
Proof.
  destruct o as [i [ | b [ | | body [e | ]]]];
    cbv [update_returns is_controller keeps_display]; cbn [obj_class];
    intros H; try discriminate H; unfold call_update; cbn [obj_class].
  - rewrite update_exact. eexists. split; [reflexivity | ].
    cbn. repeat split; auto. discriminate.
  - rewrite foreign_update_unfold.
    destruct (update_body_spec body
      (mk_world (model w) (view w) (stdout w)
         (calls w ++ [Call_update (mk_object i (Cls_foreign b (Attr_method body None)))])))
      as (w' & E & Hm & Hc & Hl & Hr & Hv).
    rewrite E. cbn [model view calls raise_if ret] in *.
    exists w'. repeat split; auto. discriminate.
Qed.

(** One [observer.update()] that does not return: the exception, and
    whether the method was entered at all. *)
Lemma call_update_fails (o : pyobject) (w : World) :
  update_returns o = false ->
  exists w' e, call_update o w = (w', Raise e) /\
    model w' = model w /\
    calls w' = calls w ++ (if has_update o then [Call_update o] else []).
Proof.
  destruct o as [i [ | b [ | | body [e | ]]]];
    cbv [update_returns has_update]; cbn [obj_class];
    intros H; try discriminate H; unfold call_update; cbn [obj_class].
  - eexists; eexists. split; [reflexivity | ]. rewrite app_nil_r. auto.
  - eexists; eexists. split; [reflexivity | ]. rewrite app_nil_r. auto.
  - rewrite foreign_update_unfold.
    destruct (update_body_spec body
      (mk_world (model w) (view w) (stdout w)
         (calls w ++ [Call_update (mk_object i (Cls_foreign b (Attr_method body (Some e))))])))
      as (w' & E & Hm & Hc & _).
    rewrite E. cbn [model view calls raise_if raise] in *.
    exists w', e. repeat split; auto.
Qed.

(** The loop leaves the model and both slots alone, and logs [update()]
    calls of listed observers only. *)
Lemma notify_loop_frame (l : list pyobject) :
  forall w, let w' := fst (for_each l call_update w) in
  model w' = model w /\
  _click_listener (view w') = _click_listener (view w) /\
  _reset_listener (view w') = _reset_listener (view w) /\
  exists l', calls w' = calls w ++ map Call_update l' /\ incl l' l.
Proof.
  induction l as [ | o l IH]; intros w.
  - cbn. repeat split; auto. exists []. cbn. rewrite app_nil_r. split; auto.
    apply incl_refl.
  - cbv zeta. rewrite for_each_cons.
    pose proof (call_update_frame o w) as F. cbv zeta in F.
    destruct (call_update o w) as [w1 [[] | e]]; cbn [fst] in *.
    + specialize (IH w1). cbv zeta in IH.
      destruct IH as (Hm & Hc & Hr & l' & Hl & Hi).
      destruct F as (Fm & Fc & Fr & Fl).
      repeat split; try congruence.
      destruct Fl as [Fl | Fl]; rewrite Hl, Fl.
      * exists l'. split; auto. apply incl_tl; auto.
      * exists (o :: l'). cbn [map]. rewrite <- app_assoc. split; auto.
        apply incl_cons; [left; auto | apply incl_tl; auto].
    + destruct F as (Fm & Fc & Fr & Fl).
      repeat split; try congruence.
      destruct Fl as [Fl | Fl]; rewrite Fl.
      * exists []. cbn. rewrite app_nil_r. split; auto. intros x [].
      * exists [o]. split; auto. intros x [<- | []]. left; auto.
Qed.

(** When the [update] of every listed observer returns, the loop returns,
    having called each entry once, in the order of the list. *)
Lemma notify_loop_ok (l : list pyobject) :
  Forall (fun o => update_returns o = true) l ->
  forall w, exists w', for_each l call_update w = (w', Return tt) /\
    model w' = model w /\
    calls w' = calls w ++ map Call_update l /\
    _click_listener (view w') = _click_listener (view w) /\
    _reset_listener (view w') = _reset_listener (view w).
Proof.
  induction 1 as [ | o l Ho Hl IH]; intros w.
  - exists w. cbn. rewrite app_nil_r. repeat split; auto.
  - rewrite for_each_cons.
    destruct (call_update_ok o w Ho) as (w1 & E1 & M1 & C1 & L1 & R1 & _).
    rewrite E1.
    destruct (IH w1) as (w2 & E2 & M2 & C2 & L2 & R2).
    exists w2. rewrite E2, M2, C2, C1, M1, L2, R2. cbn [map].
    rewrite <- app_assoc. repeat split; auto.
Qed.

(** With well-behaved observers the view after the loop is what the last
    controller on the list pushed, or the view as it was. *)
Lemma notify_loop_view (l : list pyobject) :
  Forall (fun o => well_behaved o = true) l ->
  forall w, exists w', for_each l call_update w = (w', Return tt) /\
    model w' = model w /\
    (existsb is_controller l = true ->
       view w' = pushed_view (_count (model w)) (view w)) /\
    (existsb is_controller l = false -> view w' = view w).
Proof.
  induction 1 as [ | o l Ho Hl IH]; intros w.
  - exists w. cbn. repeat split; auto. discriminate.
  - rewrite for_each_cons. unfold well_behaved in Ho.
    apply andb_true_iff in Ho. destruct Ho as [Ho Hk].
    destruct (call_update_ok o w Ho) as (w1 & E1 & M1 & _ & _ & _ & D1 & V1).
    rewrite E1.
    destruct (IH w1) as (w2 & E2 & M2 & D2 & V2).
    exists w2. rewrite E2, M2, M1. cbn [existsb]. repeat split; auto.
    + intros Hex. destruct (existsb is_controller l) eqn:El.
      * rewrite D2, M1 by auto. destruct (is_controller o) eqn:Ec.
        -- rewrite D1 by auto. reflexivity.
        -- rewrite V1 by auto. reflexivity.
      * rewrite V2 by auto. apply D1. destruct (is_controller o); auto.
    + intros Hex. apply orb_false_iff in Hex. destruct Hex as [Ho' Hl'].
      rewrite V2, V1; auto.
Qed.

(** The loop stops at the first observer whose [update] does not return:
    the observers after it are not called. *)
Lemma notify_loop_raise (l1 : list pyobject) (o : pyobject) (l2 : list pyobject) :
  Forall (fun x => update_returns x = true) l1 ->
  update_returns o = false ->
  forall w, exists w' e, for_each (l1 ++ o :: l2) call_update w = (w', Raise e) /\
    model w' = model w /\
    calls w' = calls w ++ map Call_update l1
                       ++ (if has_update o then [Call_update o] else []).
Proof.
  intros H1 Ho. induction H1 as [ | x l1 Hx Hl IH]; intros w; cbn [app].
  - rewrite for_each_cons.
    destruct (call_update_fails o w Ho) as (w' & e & E & Hm & Hc).
    rewrite E. exists w', e. cbn [map app]. auto.
  - rewrite for_each_cons.
    destruct (call_update_ok x w Hx) as (w1 & E1 & M1 & C1 & _).
    rewrite E1. destruct (IH w1) as (w' & e & E & Hm & Hc).
    exists w', e. rewrite E, Hm, M1, Hc, C1. cbn [map].
    rewrite <- !app_assoc. auto.
Qed.
(** ** The mutators *)

Lemma call_mutator_unfold (m : mutator) (w : World) :
  call_mutator m w =
  for_each (_observers (model w)) call_update
    (mk_world (mk_model (count_after m (_count (model w))) (_observers (model w)))
              (view w) (stdout w) (calls w)).
Proof. destruct m; reflexivity. Qed.

(** A mutator sets the counter first and touches neither the list of
    observers nor the slots, whatever its outcome. *)
Lemma mutator_frame (m : mutator) (w : World) :
  let w' := fst (call_mutator m w) in
  model w' = mk_model (count_after m (_count (model w))) (_observers (model w)) /\
  _click_listener (view w') = _click_listener (view w) /\
  _reset_listener (view w') = _reset_listener (view w) /\
  exists l', calls w' = calls w ++ map Call_update l' /\
             incl l' (_observers (model w)).
Proof.
  cbv zeta. rewrite call_mutator_unfold.
  exact (notify_loop_frame (_observers (model w))
           (mk_world (mk_model (count_after m (_count (model w)))
                               (_observers (model w)))
                     (view w) (stdout w) (calls w))).
Qed.

(** With observers whose [update] returns a mutator returns, and its
    notifications are the list of observers, in order. *)
Lemma mutator_ok (m : mutator) (w : World) :
  Forall (fun o => update_returns o = true) (_observers (model w)) ->
  exists w', call_mutator m w = (w', Return tt) /\
    model w' = mk_model (count_after m (_count (model w))) (_observers (model w)) /\
    calls w' = calls w ++ map Call_update (_observers (model w)) /\
    _click_listener (view w') = _click_listener (view w) /\
    _reset_listener (view w') = _reset_listener (view w).
Proof.
  intros H. rewrite call_mutator_unfold.
  exact (notify_loop_ok _ H
           (mk_world (mk_model (count_after m (_count (model w)))
                               (_observers (model w)))
                     (view w) (stdout w) (calls w))).
Qed.

(** With well-behaved observers, one of them a controller, the view after
    a mutator shows the new counter. *)
Lemma mutator_view (m : mutator) (w : World) :
  Forall (fun o => well_behaved o = true) (_observers (model w)) ->
  exists w', call_mutator m w = (w', Return tt) /\
    model w' = mk_model (count_after m (_count (model w))) (_observers (model w)) /\
    (existsb is_controller (_observers (model w)) = true ->
       view w' = pushed_view (count_after m (_count (model w))) (view w)) /\
    (existsb is_controller (_observers (model w)) = false -> view w' = view w).
Proof.
  intros H. rewrite call_mutator_unfold.
  exact (notify_loop_view _ H
           (mk_world (mk_model (count_after m (_count (model w)))
                               (_observers (model w)))
                     (view w) (stdout w) (calls w))).
Qed.

(** A mutator whose notification meets an [update] that does not return:
    the counter is set, the exception comes out, the observers behind are
    not called. *)
Lemma mutator_raise (m : mutator) (w : World)
      (l1 : list pyobject) (o : pyobject) (l2 : list pyobject) :
  _observers (model w) = l1 ++ o :: l2 ->
  Forall (fun x => update_returns x = true) l1 ->
  update_returns o = false ->
  exists w' e, call_mutator m w = (w', Raise e) /\
    model w' = mk_model (count_after m (_count (model w))) (_observers (model w)) /\
    calls w' = calls w ++ map Call_update l1
                       ++ (if has_update o then [Call_update o] else []).
Proof.
  intros E H1 Ho. rewrite call_mutator_unfold. rewrite E.
  exact (notify_loop_raise l1 o l2 H1 Ho
           (mk_world (mk_model (count_after m (_count (model w))) (l1 ++ o :: l2))
                     (view w) (stdout w) (calls w))).
Qed.

(** A list of observers either has an [update] that returns everywhere or
    splits at the first that does not. *)
Lemma first_not_returning (l : list pyobject) :
  Forall (fun o => update_returns o = true) l \/
  exists l1 o l2, l = l1 ++ o :: l2 /\
    Forall (fun x => update_returns x = true) l1 /\
    update_returns o = false.
Proof.
  induction l as [ | x l IH].
  - left. constructor.
  - destruct (update_returns x) eqn:Ex.
    + destruct IH as [IH | (l1 & o & l2 & E & H1 & Ho)].
      * left. constructor; auto.
      * right. exists (x :: l1), o, l2. rewrite E. repeat split; auto.
    + right. exists [], x, l. repeat split; auto.
Qed.

Lemma new_calls_app (w w' : World) (evs : list event) :
  calls w' = calls w ++ evs -> new_calls w w' = evs.
Proof.
  intros E. unfold new_calls. rewrite E.
  rewrite skipn_app, skipn_all, Nat.sub_diag. reflexivity.
Qed.

Lemma updates_of_map (o : pyobject) (l : list pyobject) :
  updates_of o (map Call_update l) = count_occ pyobject_eq_dec l o.
Proof.
  unfold updates_of. induction l as [ | x l IH]; cbn [map count_occ]; auto.
  destruct (event_eq_dec (Call_update x) (Call_update o)) as [E | N];
    destruct (pyobject_eq_dec x o) as [E' | N']; congruence.
Qed.

(** ** Python lists, continued *)

Lemma list_contains_In (x : pyobject) (l : list pyobject) :
  list_contains x l = true <-> In x l.
Proof.
  unfold list_contains. rewrite existsb_exists. split.
  - intros (y & Hy & E). destruct (pyobject_eq_dec x y); congruence.
  - intros H. exists x. split; auto.
    destruct (pyobject_eq_dec x x); congruence.
Qed.

(** [l.remove(x)] on a list that holds [x] drops its first occurrence. *)
Lemma list_remove_In (x : pyobject) (l : list pyobject) :
  In x l ->
  exists l1 l2, l = l1 ++ x :: l2 /\ ~ In x l1 /\
                list_remove x l = Some (l1 ++ l2).
Proof.
  induction l as [ | y l IH]; intros H; [destruct H | ].
  cbn [list_remove]. destruct (pyobject_eq_dec x y) as [E | N].
  - subst y. exists [], l. cbn. auto.
  - destruct H as [H | H]; [congruence | ].
    destruct (IH H) as (l1 & l2 & E & Hn & R).
    exists (y :: l1), l2. rewrite R, E. cbn. repeat split; auto.
    intros [H' | H']; [congruence | auto].
Qed.

Lemma list_remove_not_In (x : pyobject) (l : list pyobject) :
  ~ In x l -> list_remove x l = None.
Proof.
  induction l as [ | y l IH]; intros H; cbn [list_remove]; auto.
  destruct (pyobject_eq_dec x y) as [E | N].
  - exfalso. apply H. left. auto.
  - rewrite IH; auto. intros H'. apply H. right. auto.
Qed.

Lemma count_occ_remove_first (x y : pyobject) (l1 l2 : list pyobject) :
  ~ In x l1 ->
  count_occ pyobject_eq_dec (l1 ++ l2) y =
  if pyobject_eq_dec x y
  then Nat.pred (count_occ pyobject_eq_dec (l1 ++ x :: l2) y)
  else count_occ pyobject_eq_dec (l1 ++ x :: l2) y.
Proof.
  intros H. rewrite !count_occ_app. cbn [count_occ].
  destruct (pyobject_eq_dec x y) as [E | N]; auto.
  rewrite <- plus_n_Sm. reflexivity.
Qed.

(** ** The methods, call by call *)

Lemma add_observer_accepted (o : pyobject) (w : World) :
  isinstance_Observer o = true ->
  add_observer o w =
  (mk_world (mk_model (_count (model w)) (_observers (model w) ++ [o]))
            (view w) (stdout w) (calls w), Return tt).
Proof. intros H. unfold add_observer. rewrite H. reflexivity. Qed.

Lemma add_observer_rejected (o : pyobject) (w : World) :
  isinstance_Observer o = false ->
  add_observer o w = (w, Raise (TypeError type_error_message)).
Proof. intros H. unfold add_observer. rewrite H. reflexivity. Qed.

Lemma remove_observer_present (o : pyobject) (w : World) :
  In o (_observers (model w)) ->
  exists l1 l2, _observers (model w) = l1 ++ o :: l2 /\ ~ In o l1 /\
    remove_observer o w =
    (mk_world (mk_model (_count (model w)) (l1 ++ l2))
              (view w) (stdout w) (calls w), Return tt).
Proof.
  intros H. destruct (list_remove_In o _ H) as (l1 & l2 & E & Hn & R).
  exists l1, l2. repeat split; auto.
  unfold remove_observer. run_monad.
  apply list_contains_In in H. rewrite H, R. reflexivity.
Qed.

Lemma remove_observer_absent (o : pyobject) (w : World) :
  ~ In o (_observers (model w)) ->
  remove_observer o w = (w, Return tt).
Proof.
  intros H. unfold remove_observer. run_monad.
  destruct (list_contains o (_observers (model w))) eqn:E; auto.
  apply list_contains_In in E. contradiction.
Qed.

Lemma invoke_unfold (f : callable) (w : World) :
  invoke f w =
  match f with
  | Controller_on_click _ =>
      call_mutator Increment
        (mk_world (model w) (view w) (stdout w ++ [click_message])
                  (calls w ++ [Call_listener f]))
  | Controller_on_reset _ =>
      call_mutator Reset
        (mk_world (model w) (view w) (stdout w ++ [reset_message])
                  (calls w ++ [Call_listener f]))
  | Foreign_callable _ _ body raises =>
      match for_each body run_listener_stmt
              (mk_world (model w) (view w) (stdout w)
                        (calls w ++ [Call_listener f])) with
      | (w', Return _) => raise_if raises w'
      | (w', Raise e) => (w', Raise e)
      end
  end.
Proof. destruct f; reflexivity. Qed.

Lemma press_unfold (slot : option callable) (w : World) :
  (if truthy slot
   then match slot with
        | Some f => invoke f
        | None => ret tt
        end
   else ret tt) w =
  match slot with
  | Some f => if truthy slot then invoke f w else (w, Return tt)
  | None => (w, Return tt)
  end.
Proof. destruct slot as [f | ]; [destruct (truthy (Some f)) | ]; reflexivity. Qed.

Lemma _on_click_pressed_unfold (w : World) :
  _on_click_pressed w =
  match _click_listener (view w) with
  | Some f => if truthy (Some f) then invoke f w else (w, Return tt)
  | None => (w, Return tt)
  end.
Proof.
  unfold _on_click_pressed. run_monad.
  rewrite press_unfold. destruct (_click_listener (view w)); reflexivity.
Qed.

Lemma _on_reset_pressed_unfold (w : World) :
  _on_reset_pressed w =
  match _reset_listener (view w) with
  | Some f => if truthy (Some f) then invoke f w else (w, Return tt)
  | None => (w, Return tt)
  end.
Proof.
  unfold _on_reset_pressed. run_monad.
  rewrite press_unfold. destruct (_reset_listener (view w)); reflexivity.
Qed.

(** The constructor of the controller never raises: the new object is an
    [Observer]. *)
Lemma new_ClickCounterController_unfold (c : nat) (w : World) :
  new_ClickCounterController c w =
  (mk_world
     (mk_model (_count (model w)) (_observers (model w) ++ [controller c]))
     (mk_view (str (_count (model w)))
              (if 0 <? _count (model w) then "#0066cc"%string
               else "#999999"%string)
              (Some (Controller_on_click (controller c)))
              (Some (Controller_on_reset (controller c))))
     (stdout w ++ [String.append update_message (str (_count (model w)))])
     (calls w ++ [Call_update (controller c)]),
   Return tt).
Proof.
  unfold new_ClickCounterController, add_observer. cbn [isinstance_Observer
    controller obj_class negb]. run_monad.
  destruct (0 <? _count (model w)); reflexivity.
Qed.

(** ** What any call can do *)

Lemma In_Call_update_map (o : pyobject) (l : list pyobject) :
  In (Call_update o) (map Call_update l) -> In o l.
Proof.
  intros H. apply in_map_iff in H. destruct H as (x & E & Hx).
  congruence.
Qed.

Lemma count_after_nonneg (m : mutator) (n : Z) :
  0 <= n -> 0 <= count_after m n.
Proof. destruct m; cbn; lia. Qed.

Lemma listener_calls_updates (l : list pyobject) :
  listener_calls (map Call_update l) = [].
Proof. induction l; cbn; auto. Qed.

Lemma listener_calls_app (evs1 evs2 : list event) :
  listener_calls (evs1 ++ evs2) = listener_calls evs1 ++ listener_calls evs2.
Proof. unfold listener_calls. apply flat_map_app. Qed.

Lemma inner_same (w w' : World) :
  model w' = model w -> calls w' = calls w -> inner_summary w w'.
Proof.
  intros Hm Hc. unfold inner_summary. rewrite Hm, Hc.
  split; [reflexivity | ]. split; [auto | ].
  exists []. rewrite app_nil_r. repeat split. intros o [].
Qed.

Lemma inner_trans (w1 w2 w3 : World) :
  inner_summary w1 w2 -> inner_summary w2 w3 -> inner_summary w1 w3.
Proof.
  intros (Ho & Hn & evs & Hc & Hl & Hu) (Ho' & Hn' & evs' & Hc' & Hl' & Hu').
  split; [congruence | ]. split; [auto | ].
  exists (evs ++ evs'). rewrite Hc', Hc, app_assoc, listener_calls_app, Hl, Hl'.
  repeat split. intros o H. apply in_app_or in H. destruct H as [H | H]; auto.
  rewrite <- Ho. auto.
Qed.

Lemma inner_mutator (m : mutator) (w : World) :
  inner_summary w (fst (call_mutator m w)).
Proof.
  destruct (mutator_frame m w) as (Hm & _ & _ & l' & Hc & Hi).
  unfold inner_summary. rewrite Hm, Hc. cbn [_observers _count].
  split; [reflexivity | ]. split; [apply count_after_nonneg | ].
  exists (map Call_update l'). split; [reflexivity | ].
  split; [apply listener_calls_updates | ].
  intros o H. apply Hi. apply In_Call_update_map. exact H.
Qed.

Lemma inner_listener_stmt (s : listener_stmt) (w : World) :
  inner_summary w (fst (run_listener_stmt s w)).
Proof.
  destruct s as [line | n | | ]; cbn [run_listener_stmt].
  - apply inner_same; reflexivity.
  - rewrite update_display_exact. apply inner_same; reflexivity.
  - apply (inner_mutator Increment).
  - apply (inner_mutator Reset).
Qed.

Lemma inner_listener_body (body : list listener_stmt) :
  forall w, inner_summary w (fst (for_each body run_listener_stmt w)).
Proof.
  induction body as [ | s body IH]; intros w.
  - apply inner_same; reflexivity.
  - rewrite for_each_cons. pose proof (inner_listener_stmt s w) as H.
    destruct (run_listener_stmt s w) as [w1 [[] | e]]; cbn [fst] in *.
    + apply (inner_trans w w1); auto.
    + exact H.
Qed.

Lemma fst_then_raise_if {A} (r : World * outcome A) (raises : option exn) :
  fst (match r with
       | (w', Return _) => raise_if raises w'
       | (w', Raise e) => (w', Raise e)
       end) = fst r.
Proof. destruct r as [w' [a | e]]; [destruct raises | ]; reflexivity. Qed.

(** What calling a listener does, whatever its outcome: it logs that one
    listener call, then only [update()] calls of registered observers. *)
Lemma invoke_summary (f : callable) (w : World) :
  let w' := fst (invoke f w) in
  _observers (model w') = _observers (model w) /\
  (0 <= _count (model w) -> 0 <= _count (model w')) /\
  exists evs, calls w' = calls w ++ Call_listener f :: evs /\
    listener_calls evs = [] /\
    forall o, In (Call_update o) evs -> In o (_observers (model w)).
Proof.
  cbv zeta.
  assert (H : exists out, inner_summary
                (mk_world (model w) (view w) out (calls w ++ [Call_listener f]))
                (fst (invoke f w))).
  { rewrite invoke_unfold. destruct f as [s | s | i t body raises].
    - eexists. apply inner_mutator.
    - eexists. apply inner_mutator.
    - eexists. rewrite fst_then_raise_if. apply inner_listener_body. }
  destruct H as (out & Ho & Hn & evs & Hc & Hl & Hu).
  cbn [model calls] in *. repeat split; auto.
  exists evs. rewrite Hc, <- app_assoc. auto.
Qed.

Lemma summary_unchanged (a : action) (w w' : World) :
  model w' = model w -> calls w' = calls w -> summary a w w'.
Proof.
  intros Hm Hc. unfold summary. rewrite Hm, Hc. repeat split; auto; try lia.
  exists []. rewrite app_nil_r. split; [auto | intros o []].
Qed.

Lemma summary_of_inner (a : action) (w w' : World) :
  inner_summary w w' -> summary a w w'.
Proof.
  intros (Ho & Hn & evs & Hc & _ & Hu). unfold summary. rewrite Ho.
  repeat split; auto. exists evs. split; auto.
Qed.

Lemma summary_invoke (a : action) (f : callable) (w : World) :
  summary a w (fst (invoke f w)).
Proof.
  destruct (invoke_summary f w) as (Ho & Hn & evs & Hc & _ & Hu).
  unfold summary. rewrite Ho. repeat split; auto.
  exists (Call_listener f :: evs). split; auto.
  intros o [H | H]; [discriminate H | auto].
Qed.

Lemma step_summary (a : action) (w : World) : summary a w (step a w).
Proof.
  unfold step. destruct a as [ | | o | o | f | f | | | n | c]; cbn [perform].
  - apply summary_of_inner. apply (inner_mutator Increment).
  - apply summary_of_inner. apply (inner_mutator Reset).
  - destruct (isinstance_Observer o) eqn:E.
    + rewrite add_observer_accepted by auto. cbn [fst].
      unfold summary. cbn [model calls _observers _count registersb].
      repeat split; auto; try lia.
      * intros x H. apply in_app_or in H. destruct H as [H | [H | []]]; auto.
        right. subst x. destruct (pyobject_eq_dec o o); [auto | congruence].
      * exists []. rewrite app_nil_r. split; [auto | intros x []].
    + rewrite add_observer_rejected by auto. apply summary_unchanged; auto.
  - destruct (in_dec pyobject_eq_dec o (_observers (model w))) as [H | H].
    + destruct (remove_observer_present o w H) as (l1 & l2 & E & Hn & R).
      rewrite R. cbn [fst]. unfold summary.
      cbn [model calls _observers _count]. rewrite E. repeat split; auto; try lia.
      * intros x Hx. left. apply in_or_app. apply in_app_or in Hx.
        destruct Hx; [left | right; right]; auto.
      * exists []. rewrite app_nil_r. split; [auto | intros x []].
    + rewrite remove_observer_absent by auto. apply summary_unchanged; auto.
  - apply summary_unchanged; reflexivity.
  - apply summary_unchanged; reflexivity.
  - rewrite _on_click_pressed_unfold.
    destruct (_click_listener (view w)) as [g | ];
      [destruct (truthy (Some g)) | ];
      try (apply summary_unchanged; reflexivity).
    apply summary_invoke.
  - rewrite _on_reset_pressed_unfold.
    destruct (_reset_listener (view w)) as [g | ];
      [destruct (truthy (Some g)) | ];
      try (apply summary_unchanged; reflexivity).
    apply summary_invoke.
  - rewrite update_display_exact. apply summary_unchanged; reflexivity.
  - rewrite new_ClickCounterController_unfold. cbn [fst].
    unfold summary. cbn [model calls _observers _count registersb].
    repeat split; auto; try lia.
    + intros x H. apply in_app_or in H. destruct H as [H | [H | []]]; auto.
      right. subst x.
      destruct (pyobject_eq_dec (controller c) (controller c));
        [auto | congruence].
    + exists [Call_update (controller c)]. split; auto.
      intros o [H | []]. right. injection H as <-.
      destruct (pyobject_eq_dec (controller c) (controller c));
        [auto | congruence].
Qed.

(** ** Reachable states *)

(** The guard of [add_observer] keeps the list of observers within the
    instances of [Observer]. *)
Lemma reachable_observers (w : World) :
  reachable w ->
  Forall (fun o => isinstance_Observer o = true) (_observers (model w)).
Proof.
  induction 1 as [v out cs | a w R IH].
  - constructor.
  - apply Forall_forall. intros x Hx.
    destruct (step_summary a w) as (Ho & _ & _).
    destruct (Ho x Hx) as [H | [_ H]]; auto.
    rewrite Forall_forall in IH. auto.
Qed.

Lemma reachable_count_nonneg (w : World) :
  reachable w -> 0 <= _count (model w).
Proof.
  induction 1 as [v out cs | a w R IH].
  - cbn. lia.
  - destruct (step_summary a w) as (_ & Hc & _). auto.
Qed.

Lemma reachable_exec (l : list action) :
  forall w, reachable w -> reachable (exec l w).
Proof.
  induction l as [ | a l IH]; intros w R; cbn; auto.
  apply IH. constructor. exact R.
Qed.

Lemma exec_cons (a : action) (l : list action) (w : World) :
  exec (a :: l) w = exec l (step a w).
Proof. reflexivity. Qed.

Lemma reachable_main_start : reachable (main []).
Proof.
  change (main []) with
    (step (Do_new_controller 0)
          (mk_world new_ClickCounterModel new_ClickCounterView banner [])).
  apply reachable_step. apply reachable_init.
Defined.

Lemma reachable_twice_registered : reachable twice_registered.
Proof.
  unfold twice_registered. apply reachable_exec. apply reachable_init.
Defined.

Lemma reachable_boom_first : reachable boom_first.
Proof.
  unfold boom_first. apply reachable_exec. apply reachable_init.
Defined.


(** ** The counter *)

Lemma increments_since_reset_snoc (ms : list mutator) (m : mutator) :
  increments_since_reset (ms ++ [m]) = count_after m (increments_since_reset ms).
Proof.
  unfold increments_since_reset. rewrite rev_app_distr. cbn.
  destruct m; reflexivity.
Qed.





(** ** increment and reset *)

Lemma In_controller_existsb (o : pyobject) (l : list pyobject) :
  In o l -> is_controller o = true -> existsb is_controller l = true.
Proof.
  intros H C. apply existsb_exists. exists o. auto.
Qed.

(** What a mutator logs, in the two cases of [first_not_returning]. *)
Lemma mutator_outcome (m : mutator) (w : World) :
  (Forall (fun o => update_returns o = true) (_observers (model w)) /\
   exists w', call_mutator m w = (w', Return tt) /\
     new_calls w w' = map Call_update (_observers (model w)))
  \/
  (exists l1 o l2 w' e,
     _observers (model w) = l1 ++ o :: l2 /\
     Forall (fun x => update_returns x = true) l1 /\
     update_returns o = false /\
     call_mutator m w = (w', Raise e) /\
     new_calls w w'
     = map Call_update l1 ++ (if has_update o then [Call_update o] else [])).
Proof.
  destruct (first_not_returning (_observers (model w)))
    as [H | (l1 & o & l2 & E & H1 & Ho)].
  - left. split; [exact H | ].
    destruct (mutator_ok m w H) as (w' & Em & _ & Hc & _).
    exists w'. split; [exact Em | apply new_calls_app; exact Hc].
  - right. destruct (mutator_raise m w l1 o l2 E H1 Ho) as (w' & e & Em & _ & Hc).
    exists l1, o, l2, w', e. repeat split; auto. apply new_calls_app; exact Hc.
Qed.

(** C3, as stated, fails: with an observer whose [update()] raises on the
    list, which [add_observer] accepts, [increment()] raises, the counter
    being already incremented. *)
Lemma increment_raises_counterexample :
  reachable boom_first /\
  snd (increment boom_first) = Raise (RuntimeError "boom") /\
  _count (model (fst (increment boom_first))) = _count (model boom_first) + 1.
Proof.
  split; [apply reachable_boom_first | ]. split; vm_compute; reflexivity.
Qed.

(** C3, amended. [increment()] sets the counter to its previous value
    plus one, whatever happens next, and leaves the list of observers
    alone; it then notifies the observers in the order of the list.  When
    the [update()] of every observer returns, [increment()] returns and
    has called them all.  It raises only when the [update()] of some
    observer raises, is missing or is not callable: the observers ahead
    of the first such one have been called, the ones behind it have
    not. *)
Theorem increment_adds_one_then_notifies (w : World) :
  _count (model (fst (increment w))) = _count (model w) + 1 /\
  _observers (model (fst (increment w))) = _observers (model w) /\
  (Forall (fun o => update_returns o = true) (_observers (model w)) ->
   exists w', increment w = (w', Return tt) /\
     new_calls w w' = map Call_update (_observers (model w))) /\
  (forall e, snd (increment w) = Raise e ->
   exists l1 o l2, _observers (model w) = l1 ++ o :: l2 /\
     Forall (fun x => update_returns x = true) l1 /\
     update_returns o = false /\
     new_calls w (fst (increment w))
     = map Call_update l1 ++ (if has_update o then [Call_update o] else [])).
Proof.
  destruct (mutator_frame Increment w) as (Hm & _).
  cbn [call_mutator count_after] in Hm. rewrite Hm. cbn [_count _observers].
  split; [reflexivity | ]. split; [reflexivity | ]. split.
  - intros H. destruct (mutator_ok Increment w H) as (w' & E & _ & Hc & _).
    exists w'. split; [exact E | apply new_calls_app; exact Hc].
  - intros e He.
    destruct (mutator_outcome Increment w)
      as [(_ & w' & E & _) | (l1 & o & l2 & w' & e' & Eo & H1 & Ho & E & Hc)];
      cbn [call_mutator] in E; rewrite E in *; cbn [snd fst] in *.
    + discriminate He.
    + exists l1, o, l2. auto.
Qed.

Lemma increment_adds_one_then_notifies_witness :
  exists w', increment (main []) = (w', Return tt) /\
    new_calls (main []) w' = map Call_update (_observers (model (main []))).
Proof.
  destruct (increment_adds_one_then_notifies (main [])) as (_ & _ & H & _).
  apply H. repeat constructor.
Defined.

(** ** Notification *)




(** C4, as stated, fails on the same grounds: [reset()] on a zero counter
    calls an observer registered twice twice, and does not call an
    observer registered behind one whose [update()] raises. *)
Lemma reset_at_zero_counterexample :
  (reachable twice_registered /\
   _count (model twice_registered) = 0 /\
   _count (model (fst (reset twice_registered))) = 0 /\
   updates_of subscriber7
     (new_calls twice_registered (fst (reset twice_registered))) = 2%nat /\
   ~ each_subscriber_updated_once
       (_observers (model twice_registered))
       (new_calls twice_registered (fst (reset twice_registered)))) /\
  (reachable boom_first /\
   _count (model boom_first) = 0 /\
   In subscriber7 (_observers (model boom_first)) /\
   updates_of subscriber7
     (new_calls boom_first (fst (reset boom_first))) = 0%nat).
Proof.
  split.
  - split; [apply reachable_twice_registered | ].
    split; [reflexivity | ].
    split; [reflexivity | ].
    split; [vm_compute; reflexivity | ].
    intros H. specialize (H subscriber7 (or_introl eq_refl)).
    vm_compute in H. discriminate H.
  - split; [apply reachable_boom_first | ].
    split; [reflexivity | ].
    split; [right; left; reflexivity | vm_compute; reflexivity].
Qed.

(** C4, amended. [reset()] called when the counter is zero leaves the
    counter at zero and the list of observers as it was, whatever its
    outcome.  When the [update()] of every registered observer returns,
    it returns and has still run exactly one notification cycle: the
    calls logged are the list of observers, once over, so each observer
    is called once per registration (exactly once when registered
    once). *)
Theorem reset_at_zero_still_notifies (w : World) :
  _count (model w) = 0 ->
  _count (model (fst (reset w))) = 0 /\
  _observers (model (fst (reset w))) = _observers (model w) /\
  (Forall (fun o => update_returns o = true) (_observers (model w)) ->
   exists w', reset w = (w', Return tt) /\
     new_calls w w' = map Call_update (_observers (model w)) /\
     (forall o, updates_of o (new_calls w w') = registrations o w) /\
     (NoDup (_observers (model w)) ->
        each_subscriber_updated_once (_observers (model w)) (new_calls w w'))).
Proof.
  intros Z0. destruct (mutator_frame Reset w) as (Hm & _).
  cbn [call_mutator count_after] in Hm. rewrite Hm. cbn [_count _observers].
  split; [reflexivity | ]. split; [reflexivity | ].
  intros H. destruct (mutator_ok Reset w H) as (w' & E & _ & Hc & _).
  apply new_calls_app in Hc. exists w'. rewrite Hc.
  split; [exact E | ]. split; [reflexivity | ]. split.
  - intros o. apply updates_of_map.
  - intros N o Ho. rewrite updates_of_map.
    apply (proj1 (NoDup_count_occ' pyobject_eq_dec _) N o Ho).
Qed.

Lemma reset_at_zero_still_notifies_witness :
  exists w', reset (main []) = (w', Return tt) /\
    new_calls (main []) w' = map Call_update (_observers (model (main []))).
Proof.
  destruct (reset_at_zero_still_notifies (main []) eq_refl) as (_ & _ & H).
  destruct H as (w' & E & Hc & _); [repeat constructor | ].
  exists w'. auto.
Defined.

(** ** Subscribing and unsubscribing *)

(** C5, as stated, fails: an object that has a no-argument [update()] but
    is not an instance of [Observer] is turned away with the type error. *)
Lemma add_observer_duck_counterexample :
  has_update duck5 = true /\
  add_observer duck5 fresh_world
  = (fresh_world, Raise (TypeError type_error_message)).
Proof. split; reflexivity. Qed.

(** C5, amended. [add_observer(o)] raises the type error exactly when [o]
    is not an instance of [Observer] (having an [update] method is not
    enough); then the state, and with it the list of observers, is
    unchanged.  Otherwise it returns, and [o] is the new last entry of
    the list. *)
Theorem add_observer_checks_isinstance (o : pyobject) (w : World) :
  (isinstance_Observer o = false /\
   add_observer o w = (w, Raise (TypeError type_error_message)))
  \/
  (isinstance_Observer o = true /\
   add_observer o w =
   (mk_world (mk_model (_count (model w)) (_observers (model w) ++ [o]))
             (view w) (stdout w) (calls w), Return tt)).
Proof.
  destruct (isinstance_Observer o) eqn:E.
  - right. split; auto. apply add_observer_accepted; auto.
  - left. split; auto. apply add_observer_rejected; auto.
Qed.

(** C6. [remove_observer(o)] never raises.  When [o] is on the list its
    first occurrence, and nothing else, is taken off; when it is not, the
    state is unchanged. *)
Theorem remove_observer_first_match (o : pyobject) (w : World) :
  (In o (_observers (model w)) /\
   exists l1 l2, _observers (model w) = l1 ++ o :: l2 /\ ~ In o l1 /\
     remove_observer o w =
     (mk_world (mk_model (_count (model w)) (l1 ++ l2))
               (view w) (stdout w) (calls w), Return tt))
  \/
  (~ In o (_observers (model w)) /\ remove_observer o w = (w, Return tt)).
Proof.
  destruct (in_dec pyobject_eq_dec o (_observers (model w))) as [H | H].
  - left. split; auto. apply remove_observer_present; auto.
  - right. split; auto. apply remove_observer_absent; auto.
Qed.

Lemma registrations_after_remove (s : pyobject) (w : World) :
  registrations s (step (Do_remove_observer s) w) = Nat.pred (registrations s w).
Proof.
  unfold step, registrations. cbn [perform].
  destruct (in_dec pyobject_eq_dec s (_observers (model w))) as [H | H].
  - destruct (remove_observer_present s w H) as (l1 & l2 & E & Hn & R).
    rewrite R. cbn [fst model _observers].
    rewrite E. rewrite (count_occ_remove_first s s l1 l2 Hn).
    destruct (pyobject_eq_dec s s); congruence.
  - rewrite (remove_observer_absent s w H). cbn [fst].
    apply (count_occ_not_In pyobject_eq_dec) in H. rewrite H. reflexivity.
Qed.





(** While nothing registers [s], an [s] that is off the list stays off,
    and no [s.update()] is logged. *)
Lemma quiet_while_unregistered (s : pyobject) (acts : list action) :
  forall w,
  ~ In s (_observers (model w)) ->
  forallb (fun a => negb (registersb a s)) acts = true ->
  ~ In s (_observers (model (exec acts w))) /\
  exists evs, calls (exec acts w) = calls w ++ evs /\
              ~ In (Call_update s) evs.
Proof.
  induction acts as [ | a acts IH]; intros w Hs Ha.
  - cbn. split; auto. exists []. rewrite app_nil_r. auto.
  - cbn [forallb] in Ha. apply andb_true_iff in Ha. destruct Ha as [Ha Hr].
    apply negb_true_iff in Ha.
    destruct (step_summary a w) as (Ho & _ & evs & Hc & He).
    assert (Hs1 : ~ In s (_observers (model (step a w)))).
    { intros H. destruct (Ho s H) as [H' | [H' _]]; [auto | congruence]. }
    rewrite exec_cons. destruct (IH (step a w) Hs1 Hr) as (Hs2 & evs2 & Hc2 & He2).
    split; auto. exists (evs ++ evs2). rewrite Hc2, Hc, app_assoc.
    split; auto. intros H. apply in_app_or in H. destruct H as [H | H]; auto.
    destruct (He s H); [auto | congruence].
Qed.

(** C7, as stated, fails: of two registrations of [s] one
    [remove_observer(s)] leaves one, and the next [increment()] calls
    [s.update()]. *)
Lemma unsubscribed_still_updated_counterexample :
  let w1 := step (Do_remove_observer subscriber7) twice_registered in
  reachable twice_registered /\
  forallb (fun a => negb (registersb a subscriber7)) [Do_increment] = true /\
  In (Call_update subscriber7) (new_calls w1 (exec [Do_increment] w1)).
Proof.
  cbv zeta. split; [apply reachable_twice_registered | ].
  split; [reflexivity | ].
  vm_compute. left. reflexivity.
Qed.

(** C7, amended. For an observer [s] registered at most once: after
    [remove_observer(s)], whatever calls follow, [increment()] and
    [reset()] among them, none of them runs [s.update()], as long as none
    of them registers [s] again.  In general [remove_observer(s)] takes
    one registration of [s] off the list: of [n + 1] it leaves [n]. *)
Theorem unsubscribed_never_updated (s : pyobject) (w : World) (acts : list action) :
  registrations s (step (Do_remove_observer s) w)
  = Nat.pred (registrations s w) /\
  ((registrations s w <= 1)%nat ->
   forallb (fun a => negb (registersb a s)) acts = true ->
   let w1 := step (Do_remove_observer s) w in
   ~ In s (_observers (model (exec acts w1))) /\
   ~ In (Call_update s) (new_calls w1 (exec acts w1))).
Proof.
  split; [apply registrations_after_remove | ].
  intros H1 Ha w1.
  assert (Hs : ~ In s (_observers (model w1))).
  { pose proof (registrations_after_remove s w) as E. fold w1 in E.
    unfold registrations in E.
    apply (count_occ_not_In pyobject_eq_dec). unfold registrations in H1. lia. }
  destruct (quiet_while_unregistered s acts w1 Hs Ha) as (Hs' & evs & Hc & He).
  split; auto. rewrite (new_calls_app _ _ _ Hc). exact He.
Qed.

Lemma unsubscribed_never_updated_witness :
  let w1 := step (Do_remove_observer (controller 0)) (main []) in
  ~ In (controller 0)
       (_observers (model (exec [Do_increment; Do_click_pressed; Do_reset] w1))) /\
  ~ In (Call_update (controller 0))
       (new_calls w1 (exec [Do_increment; Do_click_pressed; Do_reset] w1)).
Proof.
  destruct (unsubscribed_never_updated (controller 0) (main [])
              [Do_increment; Do_click_pressed; Do_reset]) as (_ & H).
  apply H.
  - vm_compute. lia.
  - reflexivity.
Defined.

(** ** Button presses *)

(** Calling a listener logs that one listener call, and no other. *)
Lemma invoke_listener_calls (f : callable) (w : World) :
  listener_calls (new_calls w (fst (invoke f w))) = [f].
Proof.
  destruct (invoke_summary f w) as (_ & _ & evs & Hc & Hl & _).
  rewrite (new_calls_app _ _ _ Hc). cbn [listener_calls flat_map app].
  change (flat_map _ evs) with (listener_calls evs). rewrite Hl. reflexivity.
Qed.

(** C8, as stated, fails: a callable object whose truth value is false,
    once registered, is set and yet not called by the press handler. *)
Lemma press_falsy_listener_counterexample :
  let w1 := fst (set_click_listener (Some falsy_listener) fresh_world) in
  _click_listener (view w1) = Some falsy_listener /\
  _on_click_pressed w1 = (w1, Return tt) /\
  listener_calls (new_calls w1 (fst (_on_click_pressed w1))) = [].
Proof. cbv zeta. repeat split. Qed.

(** C8, amended. A press handler whose slot is unset, or holds a value
    whose truth value is false, returns with the state as it was: nothing
    is called and nothing changes.  [set_click_listener] and
    [set_reset_listener] store their argument over whatever the slot held
    and leave the other slot alone; after a registration [old] and a later
    one [f] whose truth value is true (as that of every function and bound
    method is), the press handler calls [f], and [f] is the only listener
    it calls. *)
Theorem press_calls_latest_listener
        (w : World) (old : option callable) (f : callable) :
  (truthy (_click_listener (view w)) = false ->
   _on_click_pressed w = (w, Return tt)) /\
  (truthy (_reset_listener (view w)) = false ->
   _on_reset_pressed w = (w, Return tt)) /\
  (let w1 := fst (set_click_listener (Some f) (fst (set_click_listener old w))) in
   _click_listener (view w1) = Some f /\
   _reset_listener (view w1) = _reset_listener (view w) /\
   (truthy (Some f) = true ->
    _on_click_pressed w1 = invoke f w1 /\
    listener_calls (new_calls w1 (fst (_on_click_pressed w1))) = [f])) /\
  (let w1 := fst (set_reset_listener (Some f) (fst (set_reset_listener old w))) in
   _reset_listener (view w1) = Some f /\
   _click_listener (view w1) = _click_listener (view w) /\
   (truthy (Some f) = true ->
    _on_reset_pressed w1 = invoke f w1 /\
    listener_calls (new_calls w1 (fst (_on_reset_pressed w1))) = [f])).
Proof.
  split; [ | split; [ | split]].
  - intros H. rewrite _on_click_pressed_unfold.
    destruct (_click_listener (view w)); [rewrite H | ]; reflexivity.
  - intros H. rewrite _on_reset_pressed_unfold.
    destruct (_reset_listener (view w)); [rewrite H | ]; reflexivity.
  - cbv zeta.
    set (w1 := fst (set_click_listener (Some f) (fst (set_click_listener old w)))).
    assert (E : _click_listener (view w1) = Some f) by reflexivity.
    split; [exact E | ]. split; [reflexivity | ]. intros T.
    rewrite _on_click_pressed_unfold, E, T.
    split; [reflexivity | apply invoke_listener_calls].
  - cbv zeta.
    set (w1 := fst (set_reset_listener (Some f) (fst (set_reset_listener old w)))).
    assert (E : _reset_listener (view w1) = Some f) by reflexivity.
    split; [exact E | ]. split; [reflexivity | ]. intros T.
    rewrite _on_reset_pressed_unfold, E, T.
    split; [reflexivity | apply invoke_listener_calls].
Qed.

Lemma press_calls_latest_listener_witness :
  _on_click_pressed fresh_world = (fresh_world, Return tt) /\
  (let w1 := fst (set_click_listener (Some (Controller_on_click (controller 0)))
                    (fst (set_click_listener (Some falsy_listener) fresh_world))) in
   _on_click_pressed w1 = invoke (Controller_on_click (controller 0)) w1).
Proof.
  destruct (press_calls_latest_listener fresh_world (Some falsy_listener)
              (Controller_on_click (controller 0)))
    as (Hc & _ & (_ & _ & Hp) & _).
  split; [apply Hc; reflexivity | apply Hp; reflexivity].
Defined.

(** ** The read-out *)

Lemma relay_invariant_io (c : nat) (w : World)
      (out : list string) (cs : list event) :
  relay_invariant c w ->
  relay_invariant c (mk_world (model w) (view w) out cs).
Proof. intros H. exact H. Qed.

Lemma Forall_well_behaved_returns (l : list pyobject) :
  Forall (fun o => well_behaved o = true) l ->
  Forall (fun o => update_returns o = true) l.
Proof.
  apply Forall_impl. intros o H. unfold well_behaved in H.
  apply andb_true_iff in H. apply H.
Qed.

(** A mutator keeps what the controller maintains. *)
Lemma relay_mutator (c : nat) (m : mutator) (w : World) :
  relay_invariant c w ->
  relay_invariant c (fst (call_mutator m w)).
Proof.
  intros (Hin & Hw & Hc & Hr & _ & _).
  destruct (mutator_view m w Hw) as (w' & E & Hm & Hv & _).
  rewrite E. cbn [fst].
  rewrite (In_controller_existsb (controller c) _ Hin eq_refl) in Hv.
  specialize (Hv eq_refl).
  unfold relay_invariant, display_synced, display_coloured.
  rewrite Hm, Hv. cbn. auto 10.
Qed.

Lemma relay_listener_body (c : nat) (body : list listener_stmt) :
  forallb listener_stmt_keeps_display body = true ->
  forall w, relay_invariant c w ->
  relay_invariant c (fst (for_each body run_listener_stmt w)).
Proof.
  induction body as [ | s body IH]; intros Hb w J; [exact J | ].
  cbn [forallb] in Hb. apply andb_true_iff in Hb. destruct Hb as [Hs Hb].
  rewrite for_each_cons.
  assert (J1 : relay_invariant c (fst (run_listener_stmt s w))).
  { destruct s as [line | n | | ]; cbn [run_listener_stmt].
    - exact J.
    - discriminate Hs.
    - apply (relay_mutator c Increment); exact J.
    - apply (relay_mutator c Reset); exact J. }
  destruct (run_listener_stmt s w) as [w1 [[] | e]]; cbn [fst] in *.
  - apply IH; auto.
  - exact J1.
Qed.

Lemma relay_invoke (c : nat) (f : callable) (w : World) :
  slot_keeps_display (Some f) = true ->
  relay_invariant c w ->
  relay_invariant c (fst (invoke f w)).
Proof.
  intros Hf J. rewrite invoke_unfold. destruct f as [s | s | i t body raises].
  - apply (relay_mutator c Increment). exact J.
  - apply (relay_mutator c Reset). exact J.
  - rewrite fst_then_raise_if. apply relay_listener_body; [exact Hf | exact J].
Qed.

Lemma relay_step (c : nat) (a : action) (w : World) :
  relay_safe c a = true ->
  relay_invariant c w ->
  relay_invariant c (step a w).
Proof.
  intros Hsafe J. unfold step.
  destruct a as [ | | o | o | f | f | | | n | c']; cbn [perform].
  - apply (relay_mutator c Increment). exact J.
  - apply (relay_mutator c Reset). exact J.
  - destruct (isinstance_Observer o) eqn:E.
    + rewrite add_observer_accepted by auto. cbn [fst].
      cbn [relay_safe] in Hsafe. rewrite E in Hsafe. cbn [negb orb] in Hsafe.
      destruct J as (Hin & Hw & Hc & Hr & Hs & Hk).
      unfold relay_invariant, display_synced, display_coloured.
      cbn [model view _observers _count]. repeat split; auto.
      * apply in_or_app. auto.
      * apply Forall_app. split; auto.
    + rewrite add_observer_rejected by auto. exact J.
  - cbn [relay_safe] in Hsafe.
    destruct (pyobject_eq_dec o (controller c)) as [ | N]; [discriminate | ].
    destruct (in_dec pyobject_eq_dec o (_observers (model w))) as [H | H].
    + destruct (remove_observer_present o w H) as (l1 & l2 & E & Hn & Rm).
      rewrite Rm. cbn [fst].
      destruct J as (Hin & Hw & Hc & Hr & Hs & Hk).
      unfold relay_invariant, display_synced, display_coloured.
      cbn [model view _observers _count]. rewrite E in Hin, Hw.
      repeat split; auto.
      * apply in_or_app. apply in_app_or in Hin.
        destruct Hin as [Hin | [Hin | Hin]]; [left | congruence | right]; auto.
      * apply Forall_app in Hw. destruct Hw as [Ha Hb]. apply Forall_app.
        split; [exact Ha | inversion Hb; auto].
    + rewrite remove_observer_absent by auto. exact J.
  - destruct J as (Hin & Hw & Hc & Hr & Hs & Hk). repeat split; auto.
  - destruct J as (Hin & Hw & Hc & Hr & Hs & Hk). repeat split; auto.
  - rewrite _on_click_pressed_unfold.
    destruct (_click_listener (view w)) as [g | ] eqn:Eg; [ | exact J].
    destruct (truthy (Some g)); [ | exact J].
    apply relay_invoke; [ | exact J].
    destruct J as (_ & _ & Hc & _). rewrite Eg in Hc. exact Hc.
  - rewrite _on_reset_pressed_unfold.
    destruct (_reset_listener (view w)) as [g | ] eqn:Eg; [ | exact J].
    destruct (truthy (Some g)); [ | exact J].
    apply relay_invoke; [ | exact J].
    destruct J as (_ & _ & _ & Hr & _). rewrite Eg in Hr. exact Hr.
  - discriminate Hsafe.
  - rewrite new_ClickCounterController_unfold. cbn [fst].
    destruct J as (Hin & Hw & Hc & Hr & Hs & Hk).
    unfold relay_invariant, display_synced, display_coloured.
    cbn [model view _observers _count count_display_text
         count_display_foreground _click_listener _reset_listener].
    repeat split; auto.
    + apply in_or_app. auto.
    + apply Forall_app. split; auto.
Qed.

Lemma relay_exec (c : nat) (acts : list action) :
  forall w,
  forallb (relay_safe c) acts = true ->
  relay_invariant c w ->
  relay_invariant c (exec acts w).
Proof.
  induction acts as [ | a acts IH]; intros w Ha J; [exact J | ].
  cbn [forallb] in Ha. apply andb_true_iff in Ha. destruct Ha as [Ha Hr].
  rewrite exec_cons. apply IH; [exact Hr | ]. apply relay_step; auto.
Qed.

(** The constructor of the controller establishes what it maintains. *)
Lemma relay_constructed (c : nat) (w0 : World) :
  Forall (fun o => well_behaved o = true) (_observers (model w0)) ->
  relay_invariant c (step (Do_new_controller c) w0).
Proof.
  intros Hw. unfold step. cbn [perform].
  rewrite new_ClickCounterController_unfold. cbn [fst].
  unfold relay_invariant, display_synced, display_coloured.
  cbn [model view _observers _count count_display_text
       count_display_foreground _click_listener _reset_listener].
  repeat split; auto.
  - apply in_or_app. right. left. reflexivity.
  - apply Forall_app. split; auto.
Qed.




(** * Further properties of the code *)

(** ** Exceptions *)

Lemma listener_body_returns (body : list listener_stmt) :
  forall w,
  Forall (fun o => update_returns o = true) (_observers (model w)) ->
  exists w', for_each body run_listener_stmt w = (w', Return tt) /\
    _observers (model w') = _observers (model w).
Proof.
  induction body as [ | s body IH]; intros w H.
  - exists w. split; reflexivity.
  - rewrite for_each_cons.
    assert (S1 : exists w1, run_listener_stmt s w = (w1, Return tt) /\
                   _observers (model w1) = _observers (model w)).
    { destruct s as [line | n | | ]; cbn [run_listener_stmt].
      - eexists. split; reflexivity.
      - rewrite update_display_exact. eexists. split; reflexivity.
      - destruct (mutator_ok Increment w H) as (w1 & E & Hm & _).
        exists w1. split; [exact E | rewrite Hm; reflexivity].
      - destruct (mutator_ok Reset w H) as (w1 & E & Hm & _).
        exists w1. split; [exact E | rewrite Hm; reflexivity]. }
    destruct S1 as (w1 & E1 & O1). rewrite E1.
    destruct (IH w1) as (w' & E & O); [rewrite O1; exact H | ].
    exists w'. split; [exact E | congruence].
Qed.

Lemma invoke_returns (f : callable) (w : World) :
  Forall (fun o => update_returns o = true) (_observers (model w)) ->
  slot_returns (Some f) = true ->
  exists w', invoke f w = (w', Return tt).
Proof.
  intros H Hf. rewrite invoke_unfold. destruct f as [s | s | i t body [e | ]];
    try discriminate Hf.
  - destruct (mutator_ok Increment
      (mk_world (model w) (view w) (stdout w ++ [click_message])
                (calls w ++ [Call_listener (Controller_on_click s)])) H)
      as (w' & E & _).
    exists w'. exact E.
  - destruct (mutator_ok Reset
      (mk_world (model w) (view w) (stdout w ++ [reset_message])
                (calls w ++ [Call_listener (Controller_on_reset s)])) H)
      as (w' & E & _).
    exists w'. exact E.
  - destruct (listener_body_returns body
      (mk_world (model w) (view w) (stdout w)
                (calls w ++ [Call_listener (Foreign_callable i t body None)])) H)
      as (w' & E & _).
    rewrite E. exists w'. reflexivity.
Qed.

(** X1. The code of the three classes raises in one place only, the
    check of [add_observer].  In a state where the [update()] of every
    registered observer returns and neither slot holds a listener that
    raises of its own, every call returns, except [add_observer] of an
    object that is not an instance of [Observer], which raises the
    [TypeError] and leaves the state as it was: [list.remove] never gets
    to raise its [ValueError], and the constructor of the controller
    passes the check. *)
Theorem only_add_observer_raises (a : action) (w : World) :
  Forall (fun o => update_returns o = true) (_observers (model w)) ->
  slot_returns (_click_listener (view w)) = true ->
  slot_returns (_reset_listener (view w)) = true ->
  (exists w', perform a w = (w', Return tt)) \/
  (exists o, a = Do_add_observer o /\ isinstance_Observer o = false /\
             perform a w = (w, Raise (TypeError type_error_message))).
Proof.
  intros H Hc Hr.
  destruct a as [ | | o | o | f | f | | | n | c]; cbn [perform].
  - left. destruct (mutator_ok Increment w H) as (w' & E & _). exists w'. exact E.
  - left. destruct (mutator_ok Reset w H) as (w' & E & _). exists w'. exact E.
  - destruct (isinstance_Observer o) eqn:E.
    + left. rewrite add_observer_accepted by auto. eexists; reflexivity.
    + right. exists o. repeat split; auto. apply add_observer_rejected; auto.
  - left. destruct (in_dec pyobject_eq_dec o (_observers (model w))) as [Hi | Hi].
    + destruct (remove_observer_present o w Hi) as (l1 & l2 & _ & _ & E).
      rewrite E. eexists; reflexivity.
    + rewrite remove_observer_absent by auto. eexists; reflexivity.
  - left. eexists; reflexivity.
  - left. eexists; reflexivity.
  - left. rewrite _on_click_pressed_unfold.
    destruct (_click_listener (view w)) as [g | ]; [ | eexists; reflexivity].
    destruct (truthy (Some g)); [ | eexists; reflexivity].
    apply invoke_returns; auto.
  - left. rewrite _on_reset_pressed_unfold.
    destruct (_reset_listener (view w)) as [g | ]; [ | eexists; reflexivity].
    destruct (truthy (Some g)); [ | eexists; reflexivity].
    apply invoke_returns; auto.
  - left. rewrite update_display_exact. eexists; reflexivity.
  - left. rewrite new_ClickCounterController_unfold. eexists; reflexivity.
Qed.

Lemma only_add_observer_raises_witness :
  (exists w', perform Do_click_pressed (main [Click_button]) = (w', Return tt)) \/
  (exists o, Do_click_pressed = Do_add_observer o /\
             isinstance_Observer o = false /\
             perform Do_click_pressed (main [Click_button])
             = (main [Click_button], Raise (TypeError type_error_message))).
Proof.
  apply (only_add_observer_raises Do_click_pressed (main [Click_button]));
    vm_compute; auto.
Defined.

(** ** Invariants of the model *)

Lemma reachable_initial_world (v : ClickCounterView) (acts : list action) :
  reachable (exec acts (initial_world v)).
Proof. apply reachable_exec. apply reachable_init. Qed.

(** X2. Whatever calls are made on a fresh model, every object on its
    list of observers is an instance of [Observer]: the check of
    [add_observer] is the only way onto the list. *)
Theorem observers_are_Observer_instances
        (v : ClickCounterView) (acts : list action) :
  Forall (fun o => isinstance_Observer o = true)
         (_observers (model (exec acts (initial_world v)))).
Proof.
  apply reachable_observers. apply reachable_initial_world.
Qed.

(** X3. Whatever calls are made on a fresh model (mutators, button
    presses through any listener, registrations, new controllers), the
    counter is never negative. *)
Theorem counter_never_negative (v : ClickCounterView) (acts : list action) :
  0 <= _count (model (exec acts (initial_world v))).
Proof.
  apply reachable_count_nonneg. apply reachable_initial_world.
Qed.

(** ** Subscribing, then unsubscribing *)

Lemma list_remove_snoc (x : pyobject) (l : list pyobject) :
  list_remove x (l ++ [x]) =
  Some (match list_remove x l with
        | Some l' => l' ++ [x]
        | None => l
        end).
Proof.
  induction l as [ | y l IH]; cbn [app list_remove].
  - destruct (pyobject_eq_dec x x); [reflexivity | congruence].
  - destruct (pyobject_eq_dec x y) as [E | N]; [reflexivity | ].
    rewrite IH. destruct (list_remove x l); reflexivity.
Qed.

Lemma add_then_remove_observers (s : pyobject) (w : World) :
  isinstance_Observer s = true ->
  exec [Do_add_observer s; Do_remove_observer s] w =
  mk_world (mk_model (_count (model w))
              (match list_remove s (_observers (model w)) with
               | Some l' => l' ++ [s]
               | None => _observers (model w)
               end))
           (view w) (stdout w) (calls w).
Proof.
  intros I. unfold exec, step. cbn [fold_left perform].
  rewrite add_observer_accepted by exact I. cbn [fst].
  unfold remove_observer. run_monad.
  replace (list_contains s (_observers (model w) ++ [s])) with true.
  - rewrite list_remove_snoc. reflexivity.
  - symmetry. apply list_contains_In. apply in_or_app. right. left. reflexivity.
Qed.

(** X4. [add_observer(s)] followed by [remove_observer(s)] never raises
    for an instance of [Observer] and touches nothing but the list of
    observers.  It restores the list when [s] was not registered before;
    when it was, it is the earliest registration of [s] that goes and the
    new one, at the end, that stays, so [s] is now notified last.  Either
    way every object is registered as often as before. *)
Theorem add_then_remove_observer (s : pyobject) (w : World) :
  isinstance_Observer s = true ->
  let w2 := exec [Do_add_observer s; Do_remove_observer s] w in
  _count (model w2) = _count (model w) /\
  view w2 = view w /\ stdout w2 = stdout w /\ calls w2 = calls w /\
  (~ In s (_observers (model w)) ->
   _observers (model w2) = _observers (model w)) /\
  (forall l1 l2, _observers (model w) = l1 ++ s :: l2 -> ~ In s l1 ->
   _observers (model w2) = l1 ++ l2 ++ [s]) /\
  (forall o, registrations o w2 = registrations o w).
Proof.
  intros I w2. unfold w2. rewrite (add_then_remove_observers s w I).
  unfold registrations. cbn [model view stdout calls _count _observers].
  repeat split.
  - intros H. rewrite (list_remove_not_In s _ H). reflexivity.
  - intros l1 l2 E Hn.
    assert (Hin : In s (_observers (model w)))
      by (rewrite E; apply in_or_app; right; left; reflexivity).
    destruct (list_remove_In s _ Hin) as (k1 & k2 & E' & Hk & R).
    rewrite R. rewrite E in E'.
    assert (K : l1 = k1 /\ l2 = k2).
    { clear - E' Hn Hk. revert k1 E' Hk.
      induction l1 as [ | a l1 IH]; intros [ | b k1] E' Hk; cbn in E'.
      - injection E' as ->. auto.
      - injection E' as -> _. exfalso. apply Hk. left. reflexivity.
      - injection E' as -> _. exfalso. apply Hn. left. reflexivity.
      - injection E' as -> E'. destruct (IH (fun H => Hn (or_intror H)) k1 E'
          (fun H => Hk (or_intror H))) as [-> ->]. auto. }
    destruct K as [<- <-]. rewrite app_assoc. reflexivity.
  - intros o. destruct (in_dec pyobject_eq_dec s (_observers (model w))) as [H | H].
    + destruct (list_remove_In s _ H) as (k1 & k2 & E & Hk & R).
      rewrite R, E. rewrite !count_occ_app. cbn [count_occ].
      destruct (pyobject_eq_dec s o); lia.
    + rewrite (list_remove_not_In s _ H). reflexivity.
Qed.

Lemma add_then_remove_observer_witness :
  let w2 := exec [Do_add_observer subscriber7; Do_remove_observer subscriber7]
                 (step (Do_add_observer (controller 3)) twice_registered) in
  _observers (model w2) = [subscriber7; controller 3; subscriber7].
Proof.
  destruct (add_then_remove_observer subscriber7
              (step (Do_add_observer (controller 3)) twice_registered) eq_refl)
    as (_ & _ & _ & _ & _ & H & _).
  apply (H [] [subscriber7; controller 3]).
  - reflexivity.
  - intros [].
Defined.

(** ** The colour of the read-out *)

Lemma exec_count_nonneg (acts : list action) :
  forall w, 0 <= _count (model w) -> 0 <= _count (model (exec acts w)).
Proof.
  induction acts as [ | a acts IH]; intros w H; [exact H | ].
  rewrite exec_cons. apply IH.
  destruct (step_summary a w) as (_ & Hc & _). auto.
Qed.

(** X7. Once a controller is built on a state whose counter is not
    negative, and as long as it is not unsubscribed, nothing but the
    [update()] of a controller writes to the read-out and the [update()]
    of every other observer returns, the colour of the read-out follows
    the counter: grey ([#999999]) exactly when the counter is zero, blue
    ([#0066cc]) otherwise.  (The label as the view builds it is blue with
    the text 0; the constructor of the controller is what turns it
    grey.) *)
Theorem display_colour_follows_count (c : nat) (w0 : World) (acts : list action) :
  0 <= _count (model w0) ->
  Forall (fun o => well_behaved o = true) (_observers (model w0)) ->
  forallb (relay_safe c) acts = true ->
  let w := exec acts (step (Do_new_controller c) w0) in
  (_count (model w) = 0 /\
   count_display_foreground (view w) = "#999999"%string) \/
  (0 < _count (model w) /\
   count_display_foreground (view w) = "#0066cc"%string).
Proof.
  intros H0 Hw Ha w.
  destruct (relay_exec c acts _ Ha (relay_constructed c w0 Hw))
    as (_ & _ & _ & _ & _ & Hc).
  fold w in Hc.
  assert (Hn : 0 <= _count (model w)).
  { apply exec_count_nonneg. destruct (step_summary (Do_new_controller c) w0)
      as (_ & Hs & _). auto. }
  unfold display_coloured, display_colour in Hc.
  destruct (0 <? _count (model w)) eqn:E.
  - right. split; [apply Z.ltb_lt; exact E | exact Hc].
  - left. apply Z.ltb_ge in E. split; [lia | exact Hc].
Qed.

Lemma display_colour_follows_count_witness :
  let w := exec [Do_click_pressed; Do_add_observer subscriber7; Do_reset_pressed]
                (step (Do_new_controller 1) twice_registered) in
  (_count (model w) = 0 /\
   count_display_foreground (view w) = "#999999"%string) \/
  (0 < _count (model w) /\
   count_display_foreground (view w) = "#0066cc"%string).
Proof.
  apply (display_colour_follows_count 1 twice_registered
           [Do_click_pressed; Do_add_observer subscriber7; Do_reset_pressed]).
  - vm_compute. discriminate.
  - repeat constructor.
  - reflexivity.
Defined.

(** ** The application, press by press *)

Lemma press_wired (b : button) (n : Z) (out : list string) (cs : list event) :
  press b (wired n out cs) =
  (wired (count_after (mutator_of_button b) n)
         (out ++ [button_message b;
                  update_line (count_after (mutator_of_button b) n)])
         (cs ++ [Call_listener (button_listener b); Call_update (controller 0)]),
   Return tt).
Proof.
  destruct b; cbn [press].
  - rewrite _on_click_pressed_unfold. unfold wired.
    cbn [view _click_listener truthy].
    rewrite invoke_unfold, call_mutator_unfold.
    cbn [model view stdout calls _observers _count].
    rewrite for_each_cons. unfold call_update at 1. cbn [obj_class controller].
    rewrite update_exact. cbn [for_each ret model view stdout calls _count].
    unfold pushed_view.
    cbn [_click_listener _reset_listener mutator_of_button button_message
         button_listener count_after].
    rewrite <- !app_assoc. reflexivity.
  - rewrite _on_reset_pressed_unfold. unfold wired.
    cbn [view _reset_listener truthy].
    rewrite invoke_unfold, call_mutator_unfold.
    cbn [model view stdout calls _observers _count].
    rewrite for_each_cons. unfold call_update at 1. cbn [obj_class controller].
    rewrite update_exact. cbn [for_each ret model view stdout calls _count].
    unfold pushed_view.
    cbn [_click_listener _reset_listener mutator_of_button button_message
         button_listener count_after].
    rewrite <- !app_assoc. reflexivity.
Qed.

Lemma mainloop_snoc (presses : list button) (b : button) (w : World) :
  mainloop (presses ++ [b]) w = fst (press b (mainloop presses w)).
Proof. unfold mainloop. rewrite fold_left_app. reflexivity. Qed.

Lemma main_nil : main [] = wired 0 (banner ++ [update_line 0]) [Call_update (controller 0)].
Proof.
  unfold main, run, mainloop. cbn [fold_left].
  rewrite new_ClickCounterController_unfold. reflexivity.
Qed.

Lemma main_snoc (presses : list button) (b : button) :
  main (presses ++ [b]) = fst (press b (main presses)).
Proof. unfold main, run. apply mainloop_snoc. Qed.

Lemma main_wired (presses : list button) :
  main presses =
  wired (increments_since_reset (map mutator_of_button presses))
        (stdout (main presses)) (calls (main presses)).
Proof.
  induction presses as [ | b presses IH] using rev_ind.
  - rewrite main_nil. reflexivity.
  - rewrite main_snoc, IH, press_wired. cbn [fst stdout calls wired].
    rewrite map_app. cbn [map]. rewrite increments_since_reset_snoc.
    reflexivity.
Qed.

(** X8. [main()] end to end: after any sequence of button presses the
    counter is the number of presses of the click button since the last
    press of the reset button (or since the start), [get_count()] returns
    it, the read-out shows its decimal string in the matching colour, and
    the controller is still the one observer and the listener of both
    buttons. *)
Theorem main_counts_clicks_since_reset (presses : list button) :
  let w := main presses in
  let n := increments_since_reset (map mutator_of_button presses) in
  get_count w = (w, Return n) /\
  count_display_text (view w) = str n /\
  count_display_foreground (view w) = display_colour n /\
  _observers (model w) = [controller 0] /\
  _click_listener (view w) = Some (Controller_on_click (controller 0)) /\
  _reset_listener (view w) = Some (Controller_on_reset (controller 0)).
Proof.
  cbv zeta. rewrite (main_wired presses). repeat split.
Qed.

(** X9. Each button press of a session of [main()] returns, applies the
    mutator of its button to the counter, writes exactly two lines to the
    console (the line of the press, then the controller's line with the
    new counter) and makes exactly two calls: the listener of the button,
    then the controller's [update()]. *)
Theorem main_press_effect (presses : list button) (b : button) :
  let w := main presses in
  let w' := main (presses ++ [b]) in
  press b w = (w', Return tt) /\
  _count (model w') = count_after (mutator_of_button b) (_count (model w)) /\
  stdout w' = stdout w ++ [button_message b; update_line (_count (model w'))] /\
  new_calls w w' = [Call_listener (button_listener b); Call_update (controller 0)].
Proof.
  cbv zeta. rewrite main_snoc. rewrite (main_wired presses).
  rewrite press_wired. cbn [fst model stdout calls wired _count].
  repeat split. apply new_calls_app. reflexivity.
Qed.

(** ** A second controller *)

(** X10. A controller is never unsubscribed by the code.  Building a
    second controller on the same model and view hands both buttons to
    the new one and leaves the first on the list of observers; when the
    [update()] of every observer registered before returns, a click is
    then handled by the second controller alone, adds one to the counter,
    and is followed by the [update()] of every observer, both controllers
    included, in the order of their registration. *)
Theorem second_controller_takes_over (c1 c2 : nat) (w0 : World) :
  Forall (fun o => update_returns o = true) (_observers (model w0)) ->
  let w2 := exec [Do_new_controller c1; Do_new_controller c2] w0 in
  _observers (model w2) = _observers (model w0) ++ [controller c1; controller c2] /\
  _click_listener (view w2) = Some (Controller_on_click (controller c2)) /\
  _reset_listener (view w2) = Some (Controller_on_reset (controller c2)) /\
  exists w3, _on_click_pressed w2 = (w3, Return tt) /\
    _count (model w3) = _count (model w0) + 1 /\
    new_calls w2 w3 =
    Call_listener (Controller_on_click (controller c2))
    :: map Call_update (_observers (model w0) ++ [controller c1; controller c2]).
Proof.
  intros R w2.
  assert (E2 : w2 = fst (new_ClickCounterController c2
                           (fst (new_ClickCounterController c1 w0))))
    by reflexivity.
  rewrite !new_ClickCounterController_unfold in E2. cbn [fst model view stdout
    calls _count _observers] in E2.
  rewrite E2. cbn [model view _observers _count _click_listener
    _reset_listener]. rewrite <- !app_assoc. cbn [app].
  repeat split.
  rewrite _on_click_pressed_unfold. cbn [view _click_listener truthy].
  rewrite invoke_unfold.
  match goal with
  | |- exists w3, call_mutator Increment ?W = _ /\ _ =>
      destruct (mutator_ok Increment W) as (w3 & E & Hm & Hc & _)
  end.
  { cbn [model _observers]. apply Forall_app. split; [exact R | ].
    repeat constructor. }
  exists w3. split; [exact E | ]. rewrite Hm. cbn [model _count _observers].
  split; [reflexivity | ].
  apply new_calls_app. rewrite Hc. cbn [calls model _observers].
  rewrite <- !app_assoc. reflexivity.
Qed.

Lemma second_controller_takes_over_witness :
  let w2 := exec [Do_new_controller 1; Do_new_controller 2] twice_registered in
  _observers (model w2)
  = _observers (model twice_registered) ++ [controller 1; controller 2] /\
  _click_listener (view w2) = Some (Controller_on_click (controller 2)) /\
  _reset_listener (view w2) = Some (Controller_on_reset (controller 2)) /\
  exists w3, _on_click_pressed w2 = (w3, Return tt) /\
    _count (model w3) = _count (model twice_registered) + 1 /\
    new_calls w2 w3 =
    Call_listener (Controller_on_click (controller 2))
    :: map Call_update
         (_observers (model twice_registered) ++ [controller 1; controller 2]).
Proof.
  apply (second_controller_takes_over 1 2 twice_registered).
  repeat constructor.
Defined.

(** ** Centring the window *)

(** X11. [_center_window] keeps the size Tk reports and centres the
    window to the pixel: the margin it leaves on the right differs from
    the one on the left by at most one, and so do the margins below and
    above, whatever the sizes. *)
Theorem center_window_margins (tk : winfo) :
  let g := _center_window tk in
  geo_width g = winfo_width tk /\
  geo_height g = winfo_height tk /\
  -1 <= (winfo_screenwidth tk - geo_width g - geo_x g) - geo_x g <= 1 /\
  -1 <= (winfo_screenheight tk - geo_height g - geo_y g) - geo_y g <= 1.
Proof.
  unfold _center_window. cbn [geo_width geo_height geo_x geo_y].
  pose proof (Z.div_mod (winfo_width tk) 2 ltac:(lia)).
  pose proof (Z.div_mod (winfo_height tk) 2 ltac:(lia)).
  pose proof (Z.div_mod (winfo_screenwidth tk) 2 ltac:(lia)).
  pose proof (Z.div_mod (winfo_screenheight tk) 2 ltac:(lia)).
  pose proof (Z.mod_pos_bound (winfo_width tk) 2 ltac:(lia)).
  pose proof (Z.mod_pos_bound (winfo_height tk) 2 ltac:(lia)).
  pose proof (Z.mod_pos_bound (winfo_screenwidth tk) 2 ltac:(lia)).
  pose proof (Z.mod_pos_bound (winfo_screenheight tk) 2 ltac:(lia)).
  repeat split; lia.
Qed.

(** X12. A window no larger than the screen is placed entirely on it by
    [_center_window]: its corner is at non-negative coordinates and its
    far edges are within the screen. *)
Theorem center_window_on_screen (tk : winfo) :
  0 <= winfo_width tk <= winfo_screenwidth tk ->
  0 <= winfo_height tk <= winfo_screenheight tk ->
  let g := _center_window tk in
  0 <= geo_x g /\ geo_x g + geo_width g <= winfo_screenwidth tk /\
  0 <= geo_y g /\ geo_y g + geo_height g <= winfo_screenheight tk.
Proof.
  intros Hw Hh. unfold _center_window. cbn [geo_width geo_height geo_x geo_y].
  pose proof (Z.div_mod (winfo_width tk) 2 ltac:(lia)).
  pose proof (Z.div_mod (winfo_height tk) 2 ltac:(lia)).
  pose proof (Z.div_mod (winfo_screenwidth tk) 2 ltac:(lia)).
  pose proof (Z.div_mod (winfo_screenheight tk) 2 ltac:(lia)).
  pose proof (Z.mod_pos_bound (winfo_width tk) 2 ltac:(lia)).
  pose proof (Z.mod_pos_bound (winfo_height tk) 2 ltac:(lia)).
  pose proof (Z.mod_pos_bound (winfo_screenwidth tk) 2 ltac:(lia)).
  pose proof (Z.mod_pos_bound (winfo_screenheight tk) 2 ltac:(lia)).
  repeat split; lia.
Qed.

Lemma center_window_on_screen_witness :
  let g := _center_window (mk_winfo 400 300 1920 1080) in
  0 <= geo_x g /\ geo_x g + geo_width g <= 1920 /\
  0 <= geo_y g /\ geo_y g + geo_height g <= 1080.
Proof.
  apply (center_window_on_screen (mk_winfo 400 300 1920 1080)); cbn; lia.
Defined.

(** ** Registration order *)

Lemma exec_add_observers (l : list pyobject) :
  forall w,
  _observers (model (exec (map Do_add_observer l) w))
  = _observers (model w) ++ filter isinstance_Observer l.
Proof.
  induction l as [ | o l IH]; intros w; cbn [map filter].
  - cbn. rewrite app_nil_r. reflexivity.
  - rewrite exec_cons, IH. unfold step. cbn [perform].
    destruct (isinstance_Observer o) eqn:E.
    + rewrite add_observer_accepted by exact E. cbn [fst model _observers].
      rewrite <- app_assoc. reflexivity.
    + rewrite add_observer_rejected by exact E. reflexivity.
Qed.

(** X13. Registering the objects of [l] one after the other on a fresh
    model (going on after each [TypeError]) leaves on the list exactly the
    instances of [Observer] among them, in the order of the calls,
    repetitions included; when the [update()] of each of them returns, a
    mutator then calls them in that order. *)
Theorem notification_follows_registration_order
        (v : ClickCounterView) (l : list pyobject) (m : mutator) :
  let w := exec (map Do_add_observer l) (initial_world v) in
  _observers (model w) = filter isinstance_Observer l /\
  (Forall (fun o => update_returns o = true) (filter isinstance_Observer l) ->
   exists w', call_mutator m w = (w', Return tt) /\
     new_calls w w' = map Call_update (filter isinstance_Observer l)).
Proof.
  cbv zeta.
  pose proof (exec_add_observers l (initial_world v)) as E. cbn [app
    initial_world model new_ClickCounterModel _observers] in E.
  split; [exact E | ]. intros H. rewrite <- E in H.
  destruct (mutator_ok m _ H) as (w' & Em & _ & Hc & _).
  exists w'. split; [exact Em | ]. rewrite <- E. apply new_calls_app. exact Hc.
Qed.

Lemma notification_follows_registration_order_witness :
  let w := exec (map Do_add_observer [subscriber7; duck5; controller 4])
                (initial_world new_ClickCounterView) in
  exists w', call_mutator Increment w = (w', Return tt) /\
    new_calls w w' = [Call_update subscriber7; Call_update (controller 4)].
Proof.
  destruct (notification_follows_registration_order new_ClickCounterView
              [subscriber7; duck5; controller 4] Increment) as (_ & H).
  apply H. repeat constructor.
Defined.
